(** * pywavesurfer: a shallow embedding of [pywavesurfer/ws.py]

    The loader of WaveSurfer data files: the recursive crawl of the HDF5
    container, the normalisation of node names, the correction of the
    sample rates of old files and the scaling of the analog scans.

    The embedding follows the source function by function.  The parts of
    the Python 3 runtime and of numpy that the source calls ([float],
    [round], [math.floor], [str.format], [str.lower], [os.path.splitext],
    array indexing) are modelled first, each next to a note on what it
    covers. *)

From Stdlib Require Import ZArith Ascii SpecFloat Qcanon.
From stdpp Require Import base list strings.

Local Open Scope Z_scope.
Set Warnings "-register-all".

(** ** Exceptions and results *)

(** The exceptions the loader can raise.  [KeyError], [IOError] and
    [RuntimeError] carry their argument; the others are raised by the
    runtime and only their class matters to the [except] clauses. *)
Inductive exn : Type :=
  | IOError (msg : string)
  | RuntimeError (msg : string)
  | KeyError (arg : string)
  | ValueError
  | OverflowError
  | ZeroDivisionError
  | IndexError
  | TypeError
  | AttributeError.

Inductive result (A : Type) : Type :=
  | Ok (a : A)
  | Raise (e : exn).
Arguments Ok {A} a.
Arguments Raise {A} e.

Global Instance result_ret : MRet result := λ A, Ok.
Global Instance result_bind : MBind result :=
  λ A B f m, match m with Ok a => f a | Raise e => Raise e end.
Global Instance result_fmap : FMap result :=
  λ A B f m, match m with Ok a => Ok (f a) | Raise e => Raise e end.

(** [try: m except ValueError: h] *)
Definition except_ValueError {A} (m h : result A) : result A :=
  match m with
  | Raise ValueError => h
  | r => r
  end.

(** [try: m except KeyError: h] *)
Definition except_KeyError {A} (m h : result A) : result A :=
  match m with
  | Raise (KeyError _) => h
  | r => r
  end.

(** ** The Python runtime *)

Module Py.

(** *** Floats

    A Python float is an IEEE-754 binary64 number: [spec_float] with
    [prec = 53] and [emax = 1024], and the library's correctly rounded
    operations. *)
Definition float : Type := spec_float.
Definition prec : Z := 53.
Definition emax : Z := 1024.

Definition fadd : float → float → float := SFadd prec emax.
Definition fmul : float → float → float := SFmul prec emax.
Definition fdiv : float → float → float := SFdiv prec emax.
Definition fltb : float → float → bool := SFltb.
Definition fleb : float → float → bool := SFleb.

(** The float nearest to an integer (ties to even). *)
Definition float_of_Z (z : Z) : float := binary_normalize prec emax z 0 false.

Definition is_zero (x : float) : bool :=
  match x with S754_zero _ => true | _ => false end.

(** [a / b] on Python floats: a zero divisor raises. *)
Definition truediv (a b : float) : result float :=
  if is_zero b then Raise ZeroDivisionError else Ok (fdiv a b).

(** [a / n] with [n] a Python int: [n] is converted first, which fails
    when it is out of the range of floats. *)
Definition truediv_int (a : float) (n : Z) : result float :=
  match float_of_Z n with
  | S754_infinity _ => Raise OverflowError
  | b => truediv a b
  end.

(** The value [±m·2^e] of a finite float as a fraction [(num, den)]. *)
Definition fraction (s : bool) (m : positive) (e : Z) : Z * Z :=
  let n := cond_Zopp s (Z.pos m) in
  if 0 <=? e then (n * 2 ^ e, 1) else (n, 2 ^ (- e)).

(** [num/den] rounded to the nearest integer, ties to the even one. *)
Definition round_half_even (num den : Z) : Z :=
  let q := num `div` den in
  let r := num `mod` den in
  match 2 * r ?= den with
  | Lt => q
  | Gt => q + 1
  | Eq => if Z.even q then q else q + 1
  end.

(** [round(x)] with one argument: an int, ties to even; it raises on an
    infinity and on a NaN. *)
Definition round (x : float) : result Z :=
  match x with
  | S754_nan => Raise ValueError
  | S754_infinity _ => Raise OverflowError
  | S754_zero _ => Ok 0
  | S754_finite s m e => let '(n, d) := fraction s m e in Ok (round_half_even n d)
  end.

(** [math.floor(x)]: an int; it raises like [round]. *)
Definition floor (x : float) : result Z :=
  match x with
  | S754_nan => Raise ValueError
  | S754_infinity _ => Raise OverflowError
  | S754_zero _ => Ok 0
  | S754_finite s m e => let '(n, d) := fraction s m e in Ok (n `div` d)
  end.

(** [x == n] for a float and an int compares the exact values. *)
Definition eq_int (x : float) (n : Z) : bool :=
  match x with
  | S754_nan | S754_infinity _ => false
  | S754_zero _ => n =? 0
  | S754_finite s m e => let '(p, d) := fraction s m e in p =? n * d
  end.

(** *** Strings

    Strings are byte strings; the model covers the ASCII range (a
    character outside it is no digit, no space and has no lower case). *)
Definition code (c : ascii) : Z := Z.of_N (Ascii.N_of_ascii c).

Definition is_digit (c : ascii) : bool := (48 <=? code c) && (code c <=? 57).
Definition digit_val (c : ascii) : Z := code c - 48.

(** The ASCII white space that [float] strips. *)
Definition is_space (c : ascii) : bool :=
  ((9 <=? code c) && (code c <=? 13)) || (code c =? 32).

Definition lower_char (c : ascii) : ascii :=
  if (65 <=? code c) && (code c <=? 90)
  then Ascii.ascii_of_N (Z.to_N (code c + 32)) else c.

(** [s.lower()] *)
Fixpoint lower (s : string) : string :=
  match s with
  | EmptyString => EmptyString
  | String c s' => String (lower_char c) (lower s')
  end.

(** *** [float(s)] for a string

    CPython first removes the underscores, which may only stand between
    two digits, then strips the white space at both ends, then reads
    either an infinity or a NaN or a decimal literal that must use the
    whole string.  The decimal value is rounded correctly. *)
Fixpoint remove_underscores (prev : option ascii) (s : list ascii)
    : option (list ascii) :=
  match s with
  | [] => if prev is Some "_"%char then None else Some []
  | c :: s' =>
      if Ascii.eqb c "_" then
        if from_option is_digit false prev
        then remove_underscores (Some c) s' else None
      else if from_option (Ascii.eqb "_") false prev && negb (is_digit c)
      then None
      else cons c <$> remove_underscores (Some c) s'
  end.

Fixpoint drop_spaces (s : list ascii) : list ascii :=
  match s with
  | c :: s' => if is_space c then drop_spaces s' else s
  | [] => []
  end.

Definition strip (s : list ascii) : list ascii :=
  rev (drop_spaces (rev (drop_spaces s))).

Definition take_sign (s : list ascii) : bool * list ascii :=
  match s with
  | "-"%char :: r => (true, r)
  | "+"%char :: r => (false, r)
  | _ => (false, s)
  end.

Fixpoint span_digits (s : list ascii) : list ascii * list ascii :=
  match s with
  | c :: s' =>
      if is_digit c
      then let '(ds, r) := span_digits s' in (c :: ds, r)
      else ([], s)
  | [] => ([], [])
  end.

Definition digits_value (ds : list ascii) : Z :=
  fold_left (λ acc c, 10 * acc + digit_val c) ds 0.

(** What follows the mantissa: nothing, or [e], a sign and digits. *)
Definition parse_exponent (s : list ascii) : option Z :=
  match s with
  | [] => Some 0
  | c :: r =>
      if Ascii.eqb (lower_char c) "e" then
        let '(neg, r') := take_sign r in
        match span_digits r' with
        | ((_ :: _) as ds, []) => Some (cond_Zopp neg (digits_value ds))
        | _ => None
        end
      else None
  end.

(** A decimal literal as [(m, e)], standing for [m·10^e]. *)
Definition parse_decimal (s : list ascii) : option (Z * Z) :=
  let '(ip, r) := span_digits s in
  let '(fp, r') :=
    match r with
    | "."%char :: t => span_digits t
    | _ => ([], r)
    end in
  match ip ++ fp with
  | [] => None
  | ds => e ← parse_exponent r'; Some (digits_value ds, e - Z.of_nat (length fp))
  end.

(** The float nearest to [±m·10^e], for [m ≥ 0]. *)
Definition float_of_decimal (neg : bool) (m e : Z) : float :=
  match m with
  | Z.pos p =>
      if 0 <=? e
      then binary_normalize prec emax (cond_Zopp neg (m * 10 ^ e)) 0 neg
      else fdiv (S754_finite neg p 0) (S754_finite false (Z.to_pos (10 ^ (- e))) 0)
  | _ => S754_zero neg
  end.

Definition parse_inf_or_nan (neg : bool) (s : list ascii) : option float :=
  let l := String.string_of_list_ascii (map lower_char s) in
  if String.eqb l "inf" || String.eqb l "infinity" then Some (S754_infinity neg)
  else if String.eqb l "nan" then Some S754_nan
  else None.

Definition float_of_string (s : string) : result float :=
  match remove_underscores None (String.list_ascii_of_string s) with
  | None => Raise ValueError
  | Some cs =>
      let '(neg, r) := take_sign (strip cs) in
      match parse_inf_or_nan neg r with
      | Some x => Ok x
      | None =>
          match parse_decimal r with
          | Some (m, e) => Ok (float_of_decimal neg m e)
          | None => Raise ValueError
          end
      end
  end.

(** A float literal of the source. *)
Definition literal (s : string) : float :=
  match float_of_string s with
  | Ok x => x
  | Raise _ => S754_nan
  end.

(** *** [os.path.splitext(p)[1]] (POSIX)

    The extension starts at the last dot of the last component of the
    path, unless only dots stand before it in that component. *)
Fixpoint break_at (c : ascii) (s : list ascii) : list ascii * option (list ascii) :=
  match s with
  | [] => ([], None)
  | x :: s' =>
      if Ascii.eqb x c then ([], Some s')
      else let '(a, b) := break_at c s' in (x :: a, b)
  end.

Definition splitext_ext (p : string) : string :=
  let '(rev_base, _) := break_at "/" (rev (String.list_ascii_of_string p)) in
  match break_at "." rev_base with
  | (rev_ext, Some rev_stem) =>
      if forallb (Ascii.eqb ".") rev_stem then EmptyString
      else String.string_of_list_ascii ("."%char :: rev rev_ext)
  | (_, None) => EmptyString
  end.

(** *** [str.format]

    [format(value, spec)] for a string [value], after CPython's parser of
    the format specification (version 3.10 and later):
    [[[fill]align][sign][z][#][0][width][grouping][.precision][type]].
    Every failure is a [ValueError]. *)
Record format_spec : Type := FormatSpec {
  fill : option ascii;
  align : option ascii;
  sign : bool;
  no_neg_zero : bool;
  alternate : bool;
  width : nat;
  grouping : bool;
  precision : option nat;
  type : ascii
}.

Definition is_align (c : ascii) : bool :=
  Ascii.eqb c "<" || Ascii.eqb c ">" || Ascii.eqb c "=" || Ascii.eqb c "^".

Definition parse_fill_align (s : list ascii)
    : option ascii * option ascii * list ascii :=
  match s with
  | f :: a :: r =>
      if is_align a then (Some f, Some a, r)
      else if is_align f then (None, Some f, a :: r)
      else (None, None, s)
  | [a] => if is_align a then (None, Some a, []) else (None, None, s)
  | [] => (None, None, [])
  end.

(** One optional flag character among [cs]. *)
Definition take_flag (cs : list ascii) (s : list ascii) : bool * list ascii :=
  match s with
  | c :: r => if existsb (Ascii.eqb c) cs then (true, r) else (false, s)
  | [] => (false, [])
  end.

Definition parse_format_spec (spec : string) : result format_spec :=
  let '(fl, al, s) := parse_fill_align (String.list_ascii_of_string spec) in
  let '(sg, s) := take_flag ["+"; "-"; " "]%char s in
  let '(z, s) := take_flag ["z"]%char s in
  let '(alt, s) := take_flag ["#"]%char s in
  let '(zero, s) := take_flag ["0"]%char s in
  let fl := if zero then Some (default "0"%char fl) else fl in
  let '(w, s) := span_digits s in
  let '(comma, s) := take_flag [","]%char s in
  let '(under, s) := take_flag ["_"]%char s in
  if comma && under then Raise ValueError else
  pr ← match s with
       | "."%char :: t =>
           match span_digits t with
           | ([], _) => Raise ValueError
           | (ds, r) => Ok (Some (Z.to_nat (digits_value ds)), r)
           end
       | _ => Ok (None, s)
       end;
  let '(p, s) := pr in
  match s with
  | [] => Ok (FormatSpec fl al sg z alt (Z.to_nat (digits_value w)) (comma || under) p "s")
  | [t] => Ok (FormatSpec fl al sg z alt (Z.to_nat (digits_value w)) (comma || under) p t)
  | _ => Raise ValueError
  end.

Definition pad (f : format_spec) (v : list ascii) : list ascii :=
  let n := (width f - length v)%nat in
  let c := default " "%char (fill f) in
  match align f with
  | Some ">"%char => replicate n c ++ v
  | Some "^"%char => replicate (n / 2) c ++ v ++ replicate (n - n / 2) c
  | _ => v ++ replicate n c
  end.

(** [format(value, spec)], that is [value.__format__(spec)]. *)
Definition format_str (value spec : string) : result string :=
  f ← parse_format_spec spec;
  if negb (Ascii.eqb (type f) "s") || sign f || no_neg_zero f || alternate f
     || grouping f || from_option (Ascii.eqb "=") false (align f)
  then Raise ValueError
  else
    let v := String.list_ascii_of_string value in
    let v := from_option (λ n, take n v) v (precision f) in
    Ok (String.string_of_list_ascii (pad f v)).

(** A format string with one positional argument, read as its literal
    parts and its replacement fields [{:spec}]. *)
Inductive piece : Type :=
  | Lit (text : string)
  | Field (spec : string).

(** [template.format(arg)]: the fields are rendered from left to right. *)
Fixpoint str_format (template : list piece) (arg : string) : result string :=
  match template with
  | [] => Ok EmptyString
  | Lit text :: t => r ← str_format t arg; Ok (text +:+ r)
  | Field spec :: t =>
      x ← format_str arg spec; r ← str_format t arg; Ok (x +:+ r)
  end.

End Py.

(** ** Name normalisation (ws.py, lines 136-153) *)

Definition field_name_from_hdf_name (hdf_name : string) : result string :=
  except_ValueError
    (hdf_name_as_double ← Py.float_of_string hdf_name;
     rounded ← Py.round hdf_name_as_double;
     if Py.eq_int hdf_name_as_double rounded then
       (* "n{:%s}".format(hdf_name) *)
       Py.str_format [Py.Lit "n"; Py.Field "%s"] hdf_name
     else
       msg ← Py.str_format
                [Py.Lit "Unable to convert group/dataset name "; Py.Field "%s";
                 Py.Lit " to a valid field name."] hdf_name;
       Raise (RuntimeError msg))
    (Ok hdf_name).

(** ** numpy arrays *)

Module Np.

(** An array of up to two dimensions.  The rows of a matrix run along the
    first axis and all have [ncols] items. *)
Inductive array (A : Type) : Type :=
  | Scalar (x : A)
  | Vector (v : list A)
  | Matrix (ncols : nat) (rows : list (list A)).
Arguments Scalar {A} x.
Arguments Vector {A} v.
Arguments Matrix {A} ncols rows.

Definition shape {A} (a : array A) : list nat :=
  match a with
  | Scalar _ => []
  | Vector v => [length v]
  | Matrix c rows => [length rows; c]
  end.

Definition flat {A} (a : array A) : list A :=
  match a with
  | Scalar x => [x]
  | Vector v => v
  | Matrix _ rows => concat rows
  end.

Definition amap {A B} (f : A → B) (a : array A) : array B :=
  match a with
  | Scalar x => Scalar (f x)
  | Vector v => Vector (map f v)
  | Matrix c rows => Matrix c (map (map f) rows)
  end.

(** [a[i, :]]: only a matrix has two axes. *)
Definition row {A} (a : array A) (i : nat) : result (list A) :=
  match a with
  | Matrix _ rows => from_option Ok (Raise IndexError) (rows !! i)
  | _ => Raise IndexError
  end.

(** [a[i, :] = r], after [a[i, :]] was read from an array of the same
    shape. *)
Definition set_row {A} (a : array A) (i : nat) (r : list A) : result (array A) :=
  match a with
  | Matrix c rows =>
      if decide (i < length rows)%nat then Ok (Matrix c (<[i:=r]> rows))
      else Raise IndexError
  | _ => Raise IndexError
  end.

(** The leaves of a data file: a byte string (the version string), integer
    counts, or floats.  [Float32] holds the values of a single-precision
    array, which [astype('single')] produces. *)
Inductive ndarray : Type :=
  | Bytes (s : string)
  | Int (a : array Z)
  | Float64 (a : array Py.float)
  | Float32 (a : array Py.float).

(** The values of a numeric array as floats. *)
Definition to_float (a : ndarray) : result (array Py.float) :=
  match a with
  | Bytes _ => Raise TypeError
  | Int a => Ok (amap Py.float_of_Z a)
  | Float64 a | Float32 a => Ok a
  end.

(** [a.shape] *)
Definition shape_of (a : ndarray) : list nat :=
  match a with
  | Bytes _ => []
  | Int a => shape a
  | Float64 a | Float32 a => shape a
  end.

(** [a.size] *)
Definition size (a : ndarray) : nat :=
  match a with
  | Bytes _ => 1
  | Int a => length (flat a)
  | Float64 a | Float32 a => length (flat a)
  end.

(** [float(a)]: the text of a byte string is parsed; a numeric array must
    have one item. *)
Definition item (a : ndarray) : result Py.float :=
  match a with
  | Bytes s => Py.float_of_string s
  | _ =>
      v ← to_float a;
      match flat v with
      | [x] => Ok x
      | _ => Raise TypeError
      end
  end.

(** [a.tostring().decode('utf-8')].  The memory of a numeric array is
    taken to spell no text. *)
Definition tostring_decode (a : ndarray) : result string :=
  match a with
  | Bytes s => Ok s
  | _ => Raise ValueError
  end.

(** [a.astype(bool)] *)
Definition astype_bool (a : ndarray) : result (array bool) :=
  match a with
  | Bytes _ => Raise TypeError
  | Int a => Ok (amap (λ z, negb (z =? 0)) a)
  | Float64 a | Float32 a => Ok (amap (λ x, negb (Py.is_zero x)) a)
  end.

(** [a[mask]] for a boolean mask of the shape of [a]: the selected items
    in order, as a vector. *)
Definition select {A} (a : array A) (mask : array bool) : result (list A) :=
  if decide (shape a = shape mask)
  then Ok (fst <$> filter (λ p, snd p = true) (zip (flat a) (flat mask)))
  else Raise IndexError.

Definition mask_index (a : ndarray) (mask : array bool) : result ndarray :=
  match a with
  | Bytes _ => Raise TypeError
  | Int a => Int ∘ Vector <$> select a mask
  | Float64 a => Float64 ∘ Vector <$> select a mask
  | Float32 a => Float32 ∘ Vector <$> select a mask
  end.

(** The truth value of [a > 0]: defined for one item, false for none. *)
Definition positive (a : ndarray) : result bool :=
  v ← to_float a;
  match flat v with
  | [] => Ok false
  | [x] => Ok (Py.fltb (S754_zero false) x)
  | _ => Raise ValueError
  end.

(** *** Single precision *)

(** The binary32 number nearest to a float (ties to even). *)
Definition to_single (x : Py.float) : Py.float :=
  match x with
  | S754_finite s m e => binary_normalize 24 128 (cond_Zopp s (Z.pos m)) e s
  | _ => x
  end.

(** [a.astype('single')] *)
Definition astype_single (a : ndarray) : result ndarray :=
  v ← to_float a; Ok (Float32 (amap to_single v)).

(** *** [numpy.polyval]

    [y = zeros_like(x); for pv in p: y = y * x + pv], at one item [x].
    [horner] is the loop from a value of [y]; [y0x] is the first product
    [0 * x] as a float: [+0] when [x] is an integer count. *)
Definition horner {A} (add mul : A → A → A) (x : A) (p : list A) (y : A) : A :=
  fold_left (λ y pv, add (mul y x) pv) p y.

Definition polyval (p : list Py.float) (y0x x : Py.float) : Py.float :=
  match p with
  | [] => S754_zero false
  | p0 :: ps => horner Py.fadd Py.fmul x ps (Py.fadd y0x p0)
  end.

(** [numpy.empty(like.shape)]: a float array of that shape whose content
    is whatever the memory holds, [uninit k] at the flat position [k]. *)
Definition empty_like (uninit : nat → Py.float) {A} (like : array A) : array Py.float :=
  match like with
  | Scalar _ => Scalar (uninit 0%nat)
  | Vector v => Vector (map uninit (seq 0 (length v)))
  | Matrix c rows =>
      Matrix c (map (λ r, map uninit (seq (r * c) c)) (seq 0 (length rows)))
  end.

Definition empty (uninit : nat → Py.float) (like : ndarray) : array Py.float :=
  match like with
  | Bytes _ => Scalar (uninit 0%nat)
  | Int a => empty_like uninit a
  | Float64 a | Float32 a => empty_like uninit a
  end.

(** [a[i, :]] as floats (integer coefficients are read as floats). *)
Definition float_row (a : ndarray) (i : nat) : result (list Py.float) :=
  match a with
  | Bytes _ => Raise IndexError
  | Int a => map Py.float_of_Z <$> row a i
  | Float64 a | Float32 a => row a i
  end.

(** [a[i, :]] as the arguments of [polyval]: each item [x] as a float,
    after its first product [0 * x]. *)
Definition poly_row (a : ndarray) (i : nat) : result (list (Py.float * Py.float)) :=
  match a with
  | Bytes _ => Raise IndexError
  | Int a => map (λ z, (S754_zero false, Py.float_of_Z z)) <$> row a i
  | Float64 a | Float32 a => map (λ x, (Py.fmul (S754_zero false) x, x)) <$> row a i
  end.

End Np.

(** ** The decoded tree *)

(** A value of the tree: the array read from a dataset, or the nested
    mapping of a group.  A mapping is a Python [dict]: an association list
    in insertion order. *)
Inductive value : Type :=
  | Leaf (a : Np.ndarray)
  | Dict (d : list (string * value)).

Abbreviation dict := (list (string * value)).

Section dict.
Context {V : Type}.

Fixpoint dict_get (d : list (string * V)) (k : string) : option V :=
  match d with
  | [] => None
  | (k', v) :: d' => if String.eqb k' k then Some v else dict_get d' k
  end.

(** [d[k] = v]: a present key keeps its place, a new one goes last. *)
Fixpoint dict_set (d : list (string * V)) (k : string) (v : V) : list (string * V) :=
  match d with
  | [] => [(k, v)]
  | (k', v') :: d' =>
      if String.eqb k' k then (k, v) :: d' else (k', v') :: dict_set d' k v
  end.

Definition keys (d : list (string * V)) : list string := d.*1.
End dict.

(** [d[k]] for a mapping *)
Definition dict_getitem (d : dict) (k : string) : result value :=
  from_option Ok (Raise (KeyError k)) (dict_get d k).

(** [v[k]]: an array has no string index. *)
Definition getitem (v : value) (k : string) : result value :=
  match v with
  | Dict d => dict_getitem d k
  | Leaf (Np.Bytes _) => Raise TypeError
  | Leaf _ => Raise IndexError
  end.

(** [k in v]: no item of a numeric array equals a string. *)
Definition contains (v : value) (k : string) : result bool :=
  match v with
  | Dict d => Ok (bool_decide (is_Some (dict_get d k)))
  | Leaf (Np.Bytes _) => Raise TypeError
  | Leaf _ => Ok false
  end.

(** [v[k] = x] *)
Definition setitem (v : value) (k : string) (x : value) : result value :=
  match v with
  | Dict d => Ok (Dict (dict_set d k x))
  | Leaf (Np.Bytes _) => Raise TypeError
  | Leaf _ => Raise IndexError
  end.

(** The array behind an attribute access ([.size], [.shape], [.astype],
    [.tostring]): a mapping has none of these. *)
Definition as_array (v : value) : result Np.ndarray :=
  match v with
  | Leaf a => Ok a
  | Dict _ => Raise AttributeError
  end.

(** [float(v)] *)
Definition py_float (v : value) : result Py.float :=
  match v with
  | Leaf a => Np.item a
  | Dict _ => Raise TypeError
  end.

(** [for x in l: acc = f(acc, x)], stopping at the first exception. *)
Fixpoint foldM {A B} (f : B → A → result B) (l : list A) (acc : B) : result B :=
  match l with
  | [] => Ok acc
  | x :: l' => acc' ← f acc x; foldM f l' acc'
  end.

(** ** The HDF5 container *)

(** What a dataset of a WaveSurfer file holds. *)
Inductive dataset : Type :=
  | Text (s : string)
  | Counts (a : Np.array Z)
  | Reals (a : Np.array Py.float).

(** [item[()]] *)
Definition read (d : dataset) : Np.ndarray :=
  match d with
  | Text s => Np.Bytes s
  | Counts a => Np.Int a
  | Reals a => Np.Float64 a
  end.

(** A node: a group with its named items in the order of [keys()], a
    dataset, or an object of another kind (a named datatype). *)
Inductive h5node : Type :=
  | Group (items : list (string * h5node))
  | Dataset (d : dataset)
  | OtherNode.

(** ** The crawler (ws.py, lines 117-133) *)

Fixpoint crawl_h5_group (group : h5node) : result dict :=
  match group with
  | Group items =>
      (fix loop (item_names : list (string * h5node)) (res : dict)
           {struct item_names} :=
         match item_names with
         | [] => Ok res
         | (item_name, item) :: rest =>
             match item with
             | Group _ =>
                 field_name ← field_name_from_hdf_name item_name;
                 sub ← crawl_h5_group item;
                 loop rest (dict_set res field_name (Dict sub))
             | Dataset d =>
                 field_name ← field_name_from_hdf_name item_name;
                 loop rest (dict_set res field_name (Leaf (read d)))
             | OtherNode => loop rest res
             end
         end) items []
  | _ => Raise AttributeError
  end.

(** The loop of the crawler from a result built so far. *)
Fixpoint crawl_items (item_names : list (string * h5node)) (res : dict)
    : result dict :=
  match item_names with
  | [] => Ok res
  | (item_name, item) :: rest =>
      match item with
      | Group _ =>
          field_name ← field_name_from_hdf_name item_name;
          sub ← crawl_h5_group item;
          crawl_items rest (dict_set res field_name (Dict sub))
      | Dataset d =>
          field_name ← field_name_from_hdf_name item_name;
          crawl_items rest (dict_set res field_name (Leaf (read d)))
      | OtherNode => crawl_items rest res
      end
  end.

(** ** The loader (ws.py, lines 7-114 and 156-182) *)

Definition timebase_frequency : Py.float := Eval vm_compute in Py.literal "100.0e6".
Definition fixed_version : Py.float := Eval vm_compute in Py.literal "0.9125".
Definition one : Py.float := Eval vm_compute in Py.literal "1.0".

(** The files of the machine: the root group of the HDF5 file at a path,
    if there is a regular file (which is taken to be an HDF5 file). *)
Definition filesystem : Type := string → option (list (string * h5node)).

(** [n_a_i_channels]: an array of the header or an element count. *)
Inductive channel_count : Type :=
  | CountValue (v : value)
  | CountInt (n : nat).

(** [n_a_i_channels > 0] as a condition *)
Definition count_positive (n : channel_count) : result bool :=
  match n with
  | CountInt n => Ok (0 <? n)%nat
  | CountValue (Leaf a) => Np.positive a
  | CountValue (Dict _) => Raise TypeError
  end.

(** [len(field_name) >= 5 and (field_name[0:5] == "sweep" or
    field_name[0:5] == "trial")] *)
Definition is_sweep (field_name : string) : bool :=
  (5 <=? String.length field_name)%nat
  && (String.eqb (String.substring 0 5 field_name) "sweep"
      || String.eqb (String.substring 0 5 field_name) "trial").

(** Lines 29-35: the version of the file. *)
Definition resolve_version (header : value) : result Py.float :=
  has ← contains header "VersionString";
  if has : bool then
    version_string ← getitem header "VersionString";
    a ← as_array version_string;
    text ← Np.tostring_decode a;
    Py.float_of_string text
  else Ok (S754_zero false).

(** Lines 38-45 and 47-53: the fix of one sample rate.  [whole_ticks] is
    [math.floor] for the acquisition and [round] for the stimulation.  The
    header is the object stored in the tree, so both are updated. *)
Definition fix_sample_rate (section : string) (whole_ticks : Py.float → result Z)
    (st : dict * value) : result (dict * value) :=
  let '(data_file_as_dict, header) := st in
  sec ← getitem header section;
  rate ← getitem sec "SampleRate";
  nominal_sample_rate ← py_float rate;
  nominal_n_timebase_ticks_per_sample ←
    Py.truediv timebase_frequency nominal_sample_rate;
  rounded ← Py.round nominal_n_timebase_ticks_per_sample;
  if negb (Py.eq_int nominal_n_timebase_ticks_per_sample rounded) then
    n ← whole_ticks nominal_n_timebase_ticks_per_sample;
    actual_sample_rate ← Py.truediv_int timebase_frequency n;
    sec' ← setitem sec "SampleRate" (Leaf (Np.Float64 (Np.Scalar actual_sample_rate)));
    header' ← setitem header section sec';
    Ok (dict_set data_file_as_dict "header" header', header')
  else Ok st.

(** Lines 36-53: the correction pass. *)
Definition correct_sample_rates (version : Py.float) (st : dict * value)
    : result (dict * value) :=
  if Py.fltb version fixed_version then
    st ← fix_sample_rate "Acquisition" Py.floor st;
    fix_sample_rate "Stimulation" Py.round st
  else Ok st.

(** Lines 57-66 *)
Definition resolve_n_a_i_channels (header : value) : result channel_count :=
  has ← contains header "NAIChannels";
  if has : bool then CountValue <$> getitem header "NAIChannels"
  else
    acq ← getitem header "Acquisition";
    has ← contains acq "AnalogChannelScales";
    all_analog_channel_scales ←
      (if has : bool then getitem acq "AnalogChannelScales"
       else getitem acq "ChannelScales");
    a ← as_array all_analog_channel_scales;
    Ok (CountInt (Np.size a)).

(** Lines 68-76 *)
Definition read_channel_scales (header : value) : result value :=
  except_KeyError
    (has ← contains header "AIChannelScales";
     if has : bool then getitem header "AIChannelScales"
     else acq ← getitem header "Acquisition"; getitem acq "AnalogChannelScales")
    (Raise (KeyError "Unable to read channel scale information from file.")).

(** Lines 77-85 *)
Definition read_is_active (header : value) : result (Np.array bool) :=
  except_KeyError
    (has ← contains header "IsAIChannelActive";
     v ← (if has : bool then getitem header "IsAIChannelActive"
          else acq ← getitem header "Acquisition"; getitem acq "IsAnalogChannelActive");
     a ← as_array v;
     Np.astype_bool a)
    (Raise (KeyError "Unable to read active/inactive channel information from file.")).

(** Line 86: [all_analog_channel_scales[is_active]], with its items as
    floats. *)
Definition active_scales (all_analog_channel_scales : value) (is_active : Np.array bool)
    : result (list Py.float) :=
  match all_analog_channel_scales with
  | Dict _ => Raise TypeError
  | Leaf a => v ← Np.mask_index a is_active; Np.flat <$> Np.to_float v
  end.

(** Lines 89-95 *)
Definition read_scaling_coefficients (header : value) : result value :=
  except_KeyError
    (has ← contains header "AIScalingCoefficients";
     if has : bool then getitem header "AIScalingCoefficients"
     else acq ← getitem header "Acquisition"; getitem acq "AnalogScalingCoefficients")
    (Raise (KeyError "Unable to read channel scaling coefficients from file.")).

Section scaling.

(** The content of the memory that [numpy.empty] hands out. *)
Variable uninit : nat → Py.float.

(** Line 175, for channel [i]. *)
Definition scale_channel (inverse_channel_scales : list Py.float)
    (scaling_coefficients : value) (data_as_ADC_counts : Np.ndarray)
    (scaled_data : Np.array Py.float) (i : nat) : result (Np.array Py.float) :=
  inv ← from_option Ok (Raise IndexError) (inverse_channel_scales !! i);
  coefficients ← match scaling_coefficients with
                 | Dict _ => Raise TypeError
                 | Leaf a => Np.float_row a i
                 end;
  counts ← Np.poly_row data_as_ADC_counts i;
  Np.set_row scaled_data i
    (map (λ x, Py.fmul inv (Np.polyval (rev coefficients) x.1 x.2)) counts).

(** Lines 156-177.  [channel_scales] is a vector of floats. *)
Definition scaled_double_analog_data_from_raw (data_as_ADC_counts : value)
    (channel_scales : list Py.float) (scaling_coefficients : value)
    : result Np.ndarray :=
  let inverse_channel_scales := map (Py.fdiv one) channel_scales in
  let n_channels := length channel_scales in
  data ← as_array data_as_ADC_counts;
  scaled_data ← foldM (scale_channel inverse_channel_scales scaling_coefficients data)
                  (seq 0 n_channels) (Np.empty uninit data);
  Ok (Np.Float64 scaled_data).

(** Lines 180-182 *)
Definition scaled_single_analog_data_from_raw (dataAsADCCounts : value)
    (channelScales : list Py.float) (scalingCoefficients : value)
    : result Np.ndarray :=
  scaledData ← scaled_double_analog_data_from_raw dataAsADCCounts channelScales
                 scalingCoefficients;
  Np.astype_single scaledData.

(** Lines 99-112: the body of the loop over the top-level fields. *)
Definition scale_field (does_user_want_single : bool)
    (analog_channel_scales : list Py.float) (analog_scaling_coefficients : value)
    (data_file_as_dict : dict) (field_name : string) : result dict :=
  if is_sweep field_name then
    entry ← dict_getitem data_file_as_dict field_name;
    analog_data_as_counts ← getitem entry "analogScans";
    scaled_analog_data ←
      (if does_user_want_single
       then scaled_single_analog_data_from_raw analog_data_as_counts
              analog_channel_scales analog_scaling_coefficients
       else scaled_double_analog_data_from_raw analog_data_as_counts
              analog_channel_scales analog_scaling_coefficients);
    entry' ← setitem entry "analogScans" (Leaf scaled_analog_data);
    Ok (dict_set data_file_as_dict field_name entry')
  else Ok data_file_as_dict.

(** Lines 68-112: the scaling pass. *)
Definition scale_analog_scans (format_string : string) (header : value)
    (data_file_as_dict : dict) : result dict :=
  all_analog_channel_scales ← read_channel_scales header;
  is_active ← read_is_active header;
  analog_channel_scales ← active_scales all_analog_channel_scales is_active;
  analog_scaling_coefficients ← read_scaling_coefficients header;
  let does_user_want_single := String.eqb (Py.lower format_string) "single" in
  foldM (scale_field does_user_want_single analog_channel_scales
           analog_scaling_coefficients)
    (keys data_file_as_dict) data_file_as_dict.

(** Lines 24-66: the crawl, the version, the sample rates and the number
    of analog channels. *)
Definition decode (file : list (string * h5node))
    : result (dict * value * channel_count) :=
  data_file_as_dict ← crawl_h5_group (Group file);
  header ← dict_getitem data_file_as_dict "header";
  version ← resolve_version header;
  st ← correct_sample_rates version (data_file_as_dict, header);
  n_a_i_channels ← resolve_n_a_i_channels st.2;
  Ok (st, n_a_i_channels).

(** Line 67: [format_string.lower() != "raw" and n_a_i_channels > 0] *)
Definition scaling_wanted (format_string : string) (n_a_i_channels : channel_count)
    : result bool :=
  if negb (String.eqb (Py.lower format_string) "raw")
  then count_positive n_a_i_channels
  else Ok false.

(** Lines 24-114: the loader on an open file. *)
Definition load_group (file : list (string * h5node)) (format_string : string)
    : result dict :=
  '(data_file_as_dict, header, n_a_i_channels) ← decode file;
  wanted ← scaling_wanted format_string n_a_i_channels;
  if wanted : bool
  then scale_analog_scans format_string header data_file_as_dict
  else Ok data_file_as_dict.

(** Lines 7-114 *)
Definition loadDataFile (fs : filesystem) (filename format_string : string)
    : result dict :=
  match fs filename with
  | None => Raise (IOError ("The file " +:+ filename +:+ " does not exist."))
  | Some file =>
      if negb (String.eqb (Py.splitext_ext filename) ".h5")
      then Raise (RuntimeError "File must be a WaveSurfer-generated HDF5 (.h5) file.")
      else load_group file format_string
  end.

End scaling.

(** ** Notions used in the statements *)

(** The rounding that the comments of the correction pass ask of [round]:
    [num/den] to the nearest integer, a half away from zero (Python 2's
    [round], Matlab's). *)
Definition round_half_away (num den : Z) : Z :=
  let q := num `div` den in
  let r := num `mod` den in
  match 2 * r ?= den with
  | Lt => q
  | Gt => q + 1
  | Eq => if 0 <=? num then q + 1 else q
  end.

Definition is_other (item : h5node) : bool :=
  match item with
  | OtherNode => true
  | _ => false
  end.

(** The header has no [AIChannelScales], and no [AnalogChannelScales]
    in its [Acquisition] group, if it has that group. *)
Definition lacks_channel_scales (header : value) : Prop :=
  ∃ h, header = Dict h
       ∧ dict_get h "AIChannelScales" = None
       ∧ (dict_get h "Acquisition" = None
          ∨ ∃ acq, dict_get h "Acquisition" = Some (Dict acq)
                   ∧ dict_get acq "AnalogChannelScales" = None).

(** The sum of [c_j * x^j] over the positions [j] of [c], in exact
    arithmetic. *)
Definition sum_of_powers (c : list Qc) (x : Qc) : Qc :=
  foldr Qcplus 0%Qc (imap (λ j cj, (cj * x ^ j)%Qc) c).

(** The array of the double format narrowed to single precision. *)
Definition narrow (a : Np.ndarray) : Np.ndarray :=
  match a with
  | Np.Float64 a => Np.Float32 (Np.amap Np.to_single a)
  | _ => a
  end.

(** A record with its analog scans narrowed. *)
Definition narrow_scans (v : value) : value :=
  match v with
  | Dict e =>
      match dict_get e "analogScans" with
      | Some (Leaf a) => Dict (dict_set e "analogScans" (Leaf (narrow a)))
      | _ => v
      end
  | Leaf _ => v
  end.

Definition narrow_field (kv : string * value) : string * value :=
  if is_sweep kv.1 then (kv.1, narrow_scans kv.2) else kv.

(** A tree with the analog scans of its sweeps and trials narrowed. *)
Definition narrow_sweeps (d : dict) : dict := narrow_field <$> d.

(** Whether the loader reaches the scaling pass when the format is not
    "raw". *)
Definition scaling_runs (file : option (list (string * h5node))) : bool :=
  match file with
  | Some file =>
      match decode file with
      | Ok (_, _, n_a_i_channels) =>
          match count_positive n_a_i_channels with
          | Ok b => b
          | Raise _ => false
          end
      | Raise _ => false
      end
  | None => false
  end.

(** The loop body of the scaling pass (lines 99-112) on one field and its
    value. *)
Definition scale_entry uninit (does_user_want_single : bool)
    (analog_channel_scales : list Py.float) (analog_scaling_coefficients : value)
    (kv : string * value) : result (string * value) :=
  if is_sweep kv.1 then
    analog_data_as_counts ← getitem kv.2 "analogScans";
    scaled_analog_data ←
      (if does_user_want_single
       then scaled_single_analog_data_from_raw uninit analog_data_as_counts
              analog_channel_scales analog_scaling_coefficients
       else scaled_double_analog_data_from_raw uninit analog_data_as_counts
              analog_channel_scales analog_scaling_coefficients);
    entry' ← setitem kv.2 "analogScans" (Leaf scaled_analog_data);
    Ok (kv.1, entry')
  else Ok kv.

Fixpoint mapM {A B} (f : A → result B) (l : list A) : result (list B) :=
  match l with
  | [] => Ok []
  | x :: l' => y ← f x; ys ← mapM f l'; Ok (y :: ys)
  end.

(** ** Sample files *)

(** A header with both sample rates at 40 MHz, and at 50 MHz. *)
Definition header_40MHz : value :=
  Dict [("Acquisition",
         Dict [("SampleRate", Leaf (Np.Float64 (Np.Scalar (Py.literal "40000000.0"))))]);
        ("Stimulation",
         Dict [("SampleRate", Leaf (Np.Float64 (Np.Scalar (Py.literal "40000000.0"))))])].

Definition header_50MHz : value :=
  Dict [("Acquisition",
         Dict [("SampleRate", Leaf (Np.Float64 (Np.Scalar (Py.literal "50000000.0"))))]);
        ("Stimulation",
         Dict [("SampleRate", Leaf (Np.Float64 (Np.Scalar (Py.literal "50000000.0"))))])].

(** One channel, two scans: scale 2, coefficients [0, 1]. *)
Definition two_scans : value := Leaf (Np.Int (Np.Matrix 2 [[10; 20]])).

Definition unit_coefficients : value :=
  Leaf (Np.Float64 (Np.Matrix 2 [[Py.literal "0.0"; Py.literal "1.0"]])).

(** A file of the new layout with one active channel and one sweep. *)
Definition sample_file (version rate : string) : list (string * h5node) :=
  [("header",
    Group [("VersionString", Dataset (Text version));
           ("NAIChannels", Dataset (Reals (Np.Scalar (Py.literal "1.0"))));
           ("AIChannelScales", Dataset (Reals (Np.Vector [Py.literal "2.0"])));
           ("IsAIChannelActive", Dataset (Reals (Np.Vector [Py.literal "1.0"])));
           ("AIScalingCoefficients",
            Dataset (Reals (Np.Matrix 2 [[Py.literal "0.0"; Py.literal "1.0"]])));
           ("Acquisition",
            Group [("SampleRate", Dataset (Reals (Np.Scalar (Py.literal rate))))]);
           ("Stimulation",
            Group [("SampleRate", Dataset (Reals (Np.Scalar (Py.literal rate))))])]);
   ("sweep_0001", Group [("analogScans", Dataset (Counts (Np.Matrix 2 [[10; 20]])))])].

(** The two sample rates of a loaded tree. *)
Definition sample_rates (tree : dict) : result (value * value) :=
  header ← dict_getitem tree "header";
  acq ← getitem header "Acquisition";
  a ← getitem acq "SampleRate";
  stim ← getitem header "Stimulation";
  s ← getitem stim "SampleRate";
  Ok (a, s).

(** No memory is assumed of [numpy.empty]: the samples use NaN. *)
Definition no_memory (k : nat) : Py.float := S754_nan.

(** The container of the crawler's example: group A with the leaf B and
    the empty group C. *)
Definition container_A : list (string * h5node) :=
  [("A", Group [("B", Dataset (Counts (Np.Vector [1; 2; 3]))); ("C", Group [])])].

(** A header with one analog channel and no scales in either layout. *)
Definition file_without_scales : list (string * h5node) :=
  [("header",
    Group [("VersionString", Dataset (Text "0.913"));
           ("NAIChannels", Dataset (Reals (Np.Scalar (Py.literal "1.0"))))])].

(** A machine with one file, [data.h5]. *)
Definition files (file : list (string * h5node)) : filesystem :=
  λ filename, if String.eqb filename "data.h5" then Some file else None.

(** Whether [float] reads the name as a finite number, a NaN, or not at
    all: the names the normaliser accepts. *)
Definition name_accepted (name : string) : bool :=
  match Py.float_of_string name with
  | Ok (S754_infinity _) => false
  | _ => true
  end.

(** Whether every group and dataset of the container, at every depth, has
    an accepted name. *)
Fixpoint names_accepted (node : h5node) : bool :=
  match node with
  | Group items =>
      forallb (λ '(name, item),
                 match item with
                 | OtherNode => true
                 | _ => name_accepted name && names_accepted item
                 end) items
  | _ => true
  end.

(** The names of the groups and datasets of a group, in order. *)
Definition crawled_names (items : list (string * h5node)) : list string :=
  (filter (λ p, is_other p.2 = false) items).*1.

(** The nominal number of timebase ticks per sample of a section of the
    header (lines 38-39 and 47-48). *)
Definition nominal_ticks (header : value) (section : string) : result Py.float :=
  sec ← getitem header section;
  rate ← getitem sec "SampleRate";
  nominal_sample_rate ← py_float rate;
  Py.truediv timebase_frequency nominal_sample_rate.

(** A float that equals its rounding. *)
Definition whole (t : Py.float) : Prop :=
  ∃ n, Py.round t = Ok n ∧ Py.eq_int t n = true.

(** A float strictly between 0 and 1. *)
Definition below_one (t : Py.float) : Prop :=
  ∃ m e, t = S754_finite false m e ∧ e < 0 ∧ Z.pos m < 2 ^ (- e).

(** A header of an old file with a nominal acquisition rate of 150 MHz. *)
Definition header_150MHz : value :=
  Dict [("Acquisition",
         Dict [("SampleRate", Leaf (Np.Float64 (Np.Scalar (Py.literal "150e6"))))]);
        ("Stimulation",
         Dict [("SampleRate", Leaf (Np.Float64 (Np.Scalar (Py.literal "20000.0"))))])].

Definition header_20kHz : value :=
  Dict [("Acquisition",
         Dict [("SampleRate", Leaf (Np.Float64 (Np.Scalar (Py.literal "20000.0"))))]);
        ("Stimulation",
         Dict [("SampleRate", Leaf (Np.Float64 (Np.Scalar (Py.literal "20000.0"))))])].

(** A file without a header, one of an old version without the
    Acquisition group, and one whose version string is no number. *)
Definition file_without_header : list (string * h5node) :=
  [("sweep_0001", Group [("analogScans", Dataset (Counts (Np.Matrix 2 [[10; 20]])))])].

Definition file_without_acquisition : list (string * h5node) :=
  [("header", Group [("NAIChannels", Dataset (Reals (Np.Scalar (Py.literal "1.0"))))])].

Definition file_with_bad_version : list (string * h5node) :=
  [("header", Group [("VersionString", Dataset (Text "0.9.1"))])].

(** An infinity or a NaN. *)
Definition not_finite (x : Py.float) : bool :=
  match x with
  | S754_infinity _ | S754_nan => true
  | _ => false
  end.

(** Two channels of two scans each. *)
Definition four_scans : value := Leaf (Np.Int (Np.Matrix 2 [[10; 20]; [30; 40]])).

(** The tree and the header crawled from the sample file. *)
Definition sample_tree : dict :=
  Eval vm_compute in
    match crawl_h5_group (Group (sample_file "0.913" "20000.0")) with
    | Ok d => d
    | Raise _ => []
    end.

Definition sample_header : value :=
  Eval vm_compute in default (Dict []) (dict_get sample_tree "header").

(** The items of a vector at the true positions of a mask. *)
Definition active_items {A} (all : list A) (mask : list bool) : list A :=
  (filter (λ p, p.2 = true) (zip all mask)).*1.

(** * Properties *)

(** ** The result monad *)

Lemma bind_Ok {A B} (m : result A) (f : A → result B) (b : B) :
  m ≫= f = Ok b ↔ ∃ a, m = Ok a ∧ f a = Ok b.
Proof.
  destruct m as [a|e]; simpl; split.
  - eauto.
  - by intros (a' & [= <-] & ?).
  - done.
  - by intros (? & ? & ?).
Qed.

Lemma fmap_Ok {A B} (m : result A) (f : A → B) (b : B) :
  f <$> m = Ok b ↔ ∃ a, m = Ok a ∧ b = f a.
Proof.
  destruct m as [a|e]; simpl; split.
  - intros [= <-]. eauto.
  - by intros (a' & [= <-] & ->).
  - done.
  - by intros (? & ? & ?).
Qed.

(** ** Name normalisation *)

(** A string is no number: [float] raises [ValueError] and nothing else. *)
Lemma float_of_string_raises s e :
  Py.float_of_string s = Raise e → e = ValueError.
Proof.
  unfold Py.float_of_string.
  destruct (Py.remove_underscores _ _); [|congruence].
  destruct (Py.take_sign _) as [neg r].
  destruct (Py.parse_inf_or_nan _ _); [done|].
  destruct (Py.parse_decimal _) as [[m ex]|]; congruence.
Qed.

(** The format specification [%s] is refused for every string: two
    characters are left where the type is expected. *)
Lemma format_str_percent_s value : Py.format_str value "%s" = Raise ValueError.
Proof. reflexivity. Qed.

Lemma str_format_prefix_n value :
  Py.str_format [Py.Lit "n"; Py.Field "%s"] value = Raise ValueError.
Proof. reflexivity. Qed.

Lemma str_format_message value :
  Py.str_format
    [Py.Lit "Unable to convert group/dataset name "; Py.Field "%s";
     Py.Lit " to a valid field name."] value = Raise ValueError.
Proof. reflexivity. Qed.

(** The normaliser returns its argument or raises [OverflowError] (on the
    names that [float] reads as an infinity). *)
Lemma field_name_cases hdf_name :
  field_name_from_hdf_name hdf_name = Ok hdf_name
  ∨ field_name_from_hdf_name hdf_name = Raise OverflowError.
Proof.
  unfold field_name_from_hdf_name.
  destruct (Py.float_of_string hdf_name) as [x|e] eqn:Hx; simpl.
  - destruct x as [s|s| |s m e]; simpl; auto.
    destruct (Py.fraction s m e) as [n d]; simpl.
    destruct (n =? _); auto.
  - apply float_of_string_raises in Hx as ->. auto.
Qed.

Lemma field_name_Ok hdf_name field_name :
  field_name_from_hdf_name hdf_name = Ok field_name → field_name = hdf_name.
Proof. destruct (field_name_cases hdf_name) as [-> | ->]; congruence. Qed.

(** C3: on a name that reads as an integer the normaliser evaluates
    ["n{:%s}".format(hdf_name)], whose format specification is invalid; the
    [ValueError] is caught by the handler meant for names that are no
    numbers, and the name comes back without the prefix: ["3"] gives ["3"]
    and ["007"] gives ["007"], and no name ever gets the prefix. *)
Theorem field_name_integer_name_not_prefixed :
  field_name_from_hdf_name "3" = Ok "3"
  ∧ field_name_from_hdf_name "007" = Ok "007"
  ∧ ∀ hdf_name,
      field_name_from_hdf_name hdf_name = Ok hdf_name
      ∨ field_name_from_hdf_name hdf_name = Raise OverflowError.
Proof. split_and!; [by vm_compute..|apply field_name_cases]. Qed.

(** C4: ["3.5"] reads as the float 3.5, which differs from its rounding 4,
    so the branch that should raise is taken; building its message raises
    [ValueError] first, which is caught, and ["3.5"] is returned as a field
    name.  A name that is no number, such as ["ch1"], is returned
    unchanged. *)
Theorem field_name_fractional_name_accepted :
  (x ← Py.float_of_string "3.5"; r ← Py.round x; Ok (r, Py.eq_int x r)) = Ok (4, false)
  ∧ field_name_from_hdf_name "3.5" = Ok "3.5"
  ∧ Py.float_of_string "ch1" = Raise ValueError
  ∧ field_name_from_hdf_name "ch1" = Ok "ch1".
Proof. split_and!; by vm_compute. Qed.

(** ** The sample rates *)

Lemma SFcompare_swap (a b : spec_float) :
  SFcompare b a = CompOpp <$> SFcompare a b.
Proof.
  destruct a as [sa|sa| |sa ma ea], b as [sb|sb| |sb mb eb]; simpl;
    try done; try (by destruct sa); try (by destruct sb);
    try (by destruct sa, sb).
  destruct sa, sb; simpl; try done; f_equal;
    rewrite (Z.compare_antisym ea eb);
    replace (Pos.compare_cont Eq mb ma) with (CompOpp (Pos.compare_cont Eq ma mb))
      by apply (Pos.compare_cont_antisym ma mb Eq);
    by destruct (ea ?= eb), (Pos.compare_cont Eq ma mb).
Qed.

(** A float that is at least [b] is not below [b]. *)
Lemma fleb_not_fltb (a b : Py.float) :
  Py.fleb b a = true → Py.fltb a b = false.
Proof.
  unfold Py.fleb, Py.fltb, SFleb, SFltb. rewrite (SFcompare_swap b a).
  by destruct (SFcompare b a) as [[]|].
Qed.

(** C8: for a version of 0.9125 or more the correction pass returns the
    tree and the header as they are, and raises nothing. *)
Theorem correct_sample_rates_fixed_version (version : Py.float) (st : dict * value) :
  Py.fleb fixed_version version = true →
  correct_sample_rates version st = Ok st.
Proof.
  intros Hv. unfold correct_sample_rates. by rewrite (fleb_not_fltb _ _ Hv).
Qed.

Lemma correct_sample_rates_fixed_version_witness :
  Py.fleb fixed_version (Py.literal "0.913") = true
  ∧ correct_sample_rates (Py.literal "0.913") ([("header", header_40MHz)], header_40MHz)
    = Ok ([("header", header_40MHz)], header_40MHz).
Proof.
  split; [reflexivity|].
  apply (correct_sample_rates_fixed_version (Py.literal "0.913")). reflexivity.
Defined.

(** C1: at 2.5 ticks per sample (a nominal rate of 40 MHz) and a version
    below 0.9125, [math.floor] gives 2 ticks and so does [round], which
    rounds a half to the even integer: both rates become 50 MHz and do not
    differ, in the pass and through the loader.  Rounding the half away
    from zero would give 3 ticks and the rate 33333333.33... for the
    stimulation. *)
Theorem sample_rates_at_two_and_a_half_ticks :
  Py.truediv timebase_frequency (Py.literal "40000000.0") = Ok (Py.literal "2.5")
  ∧ Py.floor (Py.literal "2.5") = Ok 2
  ∧ Py.round (Py.literal "2.5") = Ok 2
  ∧ correct_sample_rates (S754_zero false) ([("header", header_40MHz)], header_40MHz)
    = Ok ([("header", header_50MHz)], header_50MHz)
  ∧ (tree ← load_group no_memory (sample_file "0.912" "40000000.0") "double";
     sample_rates tree)
    = Ok (Leaf (Np.Float64 (Np.Scalar (Py.literal "50000000.0"))),
          Leaf (Np.Float64 (Np.Scalar (Py.literal "50000000.0"))))
  ∧ round_half_away 5 2 = 3
  ∧ Py.truediv_int timebase_frequency 3 = Ok (Py.literal "33333333.333333332").
Proof. split_and!; by vm_compute. Qed.

(** ** The loops *)

Lemma foldM_app {A B} (f : B → A → result B) (l1 l2 : list A) (acc : B) :
  foldM f (l1 ++ l2) acc = foldM f l1 acc ≫= foldM f l2.
Proof.
  revert acc. induction l1 as [|x l1 IH]; intros acc; simpl; [done|].
  destruct (f acc x); simpl; auto.
Qed.

(** A property kept by every step holds of the result. *)
Lemma foldM_invariant {A B} (P : B → Prop) (f : B → A → result B) (l : list A) :
  (∀ acc x acc', P acc → f acc x = Ok acc' → P acc') →
  ∀ acc r, P acc → foldM f l acc = Ok r → P r.
Proof.
  intros Hf. induction l as [|x l IH]; intros acc r HP; simpl.
  - by intros [= <-].
  - intros (acc' & Hx & Hr)%bind_Ok. eauto.
Qed.

(** ** Scaling *)

Lemma set_row_shape {A} (a a' : Np.array A) i r :
  Np.set_row a i r = Ok a' → Np.shape a' = Np.shape a.
Proof.
  destruct a as [x|v|c rows]; simpl; try done.
  case_decide; [|done]. intros [= <-]. simpl. by rewrite length_insert.
Qed.

Lemma empty_shape uninit (data : Np.ndarray) :
  Np.shape (Np.empty uninit data) = Np.shape_of data.
Proof.
  destruct data as [s|[x|v|c rows]|[x|v|c rows]|[x|v|c rows]]; simpl;
    by rewrite ?length_map, ?length_seq.
Qed.

Lemma scale_channel_shape inverse coefficients data scaled i scaled' :
  scale_channel inverse coefficients data scaled i = Ok scaled' →
  Np.shape scaled' = Np.shape scaled.
Proof.
  unfold scale_channel.
  intros (inv & _ & (c & _ & (xs & _ & H)%bind_Ok)%bind_Ok)%bind_Ok.
  by eapply set_row_shape.
Qed.

(** The scaled array has the shape of the raw one. *)
Lemma scaled_double_shape uninit data channel_scales scaling_coefficients out :
  scaled_double_analog_data_from_raw uninit (Leaf data) channel_scales
    scaling_coefficients = Ok out →
  Np.shape_of out = Np.shape_of data.
Proof.
  unfold scaled_double_analog_data_from_raw. simpl.
  intros (scaled & Hloop & [= <-])%bind_Ok. simpl.
  rewrite <- (empty_shape uninit data).
  revert Hloop. apply (foldM_invariant (λ a, Np.shape a = _)); [|done].
  intros acc i acc' <- Hstep. by eapply scale_channel_shape.
Qed.

(** C2: the scaled array is allocated with the shape of the raw one and
    filled row by row, so it keeps the orientation of the raw array: one
    channel with two scans, of shape 1 x 2, is scaled to an array of shape
    1 x 2, for the double and for the single format, also through the
    loader. *)
Theorem scaled_scans_keep_shape :
  (∀ uninit data channel_scales scaling_coefficients,
     match scaled_double_analog_data_from_raw uninit (Leaf data) channel_scales
             scaling_coefficients with
     | Ok out => Np.shape_of out = Np.shape_of data
     | Raise _ => True
     end)
  ∧ (out ← scaled_double_analog_data_from_raw no_memory two_scans
              [Py.literal "2.0"] unit_coefficients;
     Ok (Np.shape_of out)) = Ok [1; 2]%nat
  ∧ (out ← scaled_single_analog_data_from_raw no_memory two_scans
              [Py.literal "2.0"] unit_coefficients;
     Ok (Np.shape_of out)) = Ok [1; 2]%nat
  ∧ (tree ← load_group no_memory (sample_file "0.913" "20000.0") "double";
     sweep ← dict_getitem tree "sweep_0001";
     scans ← getitem sweep "analogScans";
     Np.shape_of <$> as_array scans) = Ok [1; 2]%nat.
Proof.
  split_and!; [|by vm_compute..].
  intros uninit data scales coefficients.
  destruct (scaled_double_analog_data_from_raw _ _ _ _) eqn:H; [|done].
  by eapply scaled_double_shape.
Qed.

(** ** Mappings *)

Section dict_facts.
Context {V : Type}.
Implicit Types (d : list (string * V)) (k : string) (v : V).

Lemma dict_get_set_eq d k v : dict_get (dict_set d k v) k = Some v.
Proof.
  induction d as [|[k' v'] d IH]; simpl.
  - by rewrite String.eqb_refl.
  - destruct (String.eqb k' k) eqn:E; simpl.
    + by rewrite String.eqb_refl.
    + by rewrite E.
Qed.

Lemma dict_get_set_ne d k k' v :
  k ≠ k' → dict_get (dict_set d k v) k' = dict_get d k'.
Proof.
  intros Hne. induction d as [|[k0 v0] d IH]; simpl.
  - by apply String.eqb_neq in Hne as ->.
  - destruct (String.eqb k0 k) eqn:E; simpl; [|by rewrite IH].
    apply String.eqb_eq in E as ->.
    by apply String.eqb_neq in Hne as ->.
Qed.

Lemma dict_get_None d k : dict_get d k = None ↔ k ∉ keys d.
Proof.
  induction d as [|[k0 v0] d IH]; simpl.
  - split; [intros _; apply not_elem_of_nil|done].
  - rewrite not_elem_of_cons, <- IH.
    destruct (String.eqb k0 k) eqn:E.
    + apply String.eqb_eq in E as ->. split; [done|]. by intros [? _].
    + apply String.eqb_neq in E. naive_solver.
Qed.

Lemma keys_dict_set_elem d k k' v :
  k' ∈ keys (dict_set d k v) ↔ k' = k ∨ k' ∈ keys d.
Proof.
  induction d as [|[k0 v0] d IH]; simpl.
  - rewrite list_elem_of_singleton, elem_of_nil. naive_solver.
  - destruct (String.eqb k0 k) eqn:E; simpl.
    + apply String.eqb_eq in E as ->. rewrite !elem_of_cons. naive_solver.
    + rewrite !elem_of_cons, IH. naive_solver.
Qed.

Lemma keys_dict_set_NoDup d k v : NoDup (keys d) → NoDup (keys (dict_set d k v)).
Proof.
  induction d as [|[k0 v0] d IH]; simpl.
  - intros _. apply NoDup_singleton.
  - intros [Hk0 Hd]%NoDup_cons.
    destruct (String.eqb k0 k) eqn:E; simpl.
    + apply String.eqb_eq in E as ->. by apply NoDup_cons.
    + apply String.eqb_neq in E. apply NoDup_cons. split; [|auto].
      rewrite keys_dict_set_elem. naive_solver.
Qed.

End dict_facts.

(** ** The crawler *)

Lemma crawl_h5_group_items items :
  crawl_h5_group (Group items) = crawl_items items [].
Proof. reflexivity. Qed.

Local Arguments crawl_h5_group : simpl never.

(** An object that is neither a group nor a dataset leaves no trace. *)
Lemma crawl_items_skip items res :
  crawl_items items res
  = crawl_items (filter (λ p, is_other p.2 = false) items) res.
Proof.
  revert res. induction items as [|[name item] items IH]; intros res; [done|].
  destruct item as [sub|ds|].
  - rewrite filter_cons_True by done. simpl.
    destruct (field_name_from_hdf_name name); simpl; [|done].
    destruct (crawl_h5_group (Group sub)); simpl; auto.
  - rewrite filter_cons_True by done. simpl.
    destruct (field_name_from_hdf_name name); simpl; auto.
  - rewrite filter_cons_False by done. simpl. auto.
Qed.

(** What the loop leaves under the name of each item, and under the other
    keys. *)
Lemma crawl_items_lookup items : ∀ res d,
  NoDup items.*1 → crawl_items items res = Ok d →
  (∀ k, k ∉ items.*1 → dict_get d k = dict_get res k)
  ∧ ∀ name item, (name, item) ∈ items →
      match item with
      | Group _ =>
          ∃ sub, field_name_from_hdf_name name = Ok name
                 ∧ crawl_h5_group item = Ok sub
                 ∧ dict_get d name = Some (Dict sub)
      | Dataset ds =>
          field_name_from_hdf_name name = Ok name
          ∧ dict_get d name = Some (Leaf (read ds))
      | OtherNode => dict_get d name = dict_get res name
      end.
Proof.
  induction items as [|[name item] items IH]; intros res d Hnd Hd.
  { simpl in Hd. injection Hd as <-. split; [done|]. by intros ?? ?%elem_of_nil. }
  rewrite fmap_cons in Hnd. apply NoDup_cons in Hnd as [Hname Hnd]. simpl in Hname.
  assert (Hrest : ∀ name' item', (name', item') ∈ items → name ≠ name').
  { intros name' item' Hin <-. apply Hname.
    by apply (list_elem_of_fmap_2 fst) in Hin. }
  simpl in Hd. destruct item as [sub|ds|].
  - apply bind_Ok in Hd as (field_name & Hf & Hd).
    pose proof (field_name_Ok _ _ Hf) as ->.
    apply bind_Ok in Hd as (s & Hs & Hd).
    destruct (IH _ _ Hnd Hd) as [Hother Hitems].
    split.
    + intros k [Hk1 Hk2]%not_elem_of_cons.
      rewrite Hother, dict_get_set_ne by done. done.
    + intros name' item' [[= -> ->]|Hin]%elem_of_cons.
      * exists s. split_and!; [done..|]. by rewrite Hother, dict_get_set_eq.
      * specialize (Hitems _ _ Hin). destruct item'; [done..|].
        rewrite Hitems. apply dict_get_set_ne. eauto.
  - apply bind_Ok in Hd as (field_name & Hf & Hd).
    pose proof (field_name_Ok _ _ Hf) as ->.
    destruct (IH _ _ Hnd Hd) as [Hother Hitems].
    split.
    + intros k [Hk1 Hk2]%not_elem_of_cons.
      rewrite Hother, dict_get_set_ne by done. done.
    + intros name' item' [[= -> ->]|Hin]%elem_of_cons.
      * split; [done|]. by rewrite Hother, dict_get_set_eq.
      * specialize (Hitems _ _ Hin). destruct item'; [done..|].
        rewrite Hitems. apply dict_get_set_ne. eauto.
  - destruct (IH _ _ Hnd Hd) as [Hother Hitems].
    split.
    + intros k [Hk1 Hk2]%not_elem_of_cons. by apply Hother.
    + intros name' item' [[= -> ->]|Hin]%elem_of_cons; [|by apply Hitems].
      by apply Hother.
Qed.

(** C9: the example container decodes to {A: {B: [1,2,3], C: {}}}; an
    object of another kind changes nothing, not even the outcome; and in
    the mapping crawled from a group (whose names are distinct) every
    subgroup stands under its normalised name as its own crawled mapping,
    every dataset as its full payload, and nothing stands under the name
    of an object of another kind. *)
Theorem crawl_h5_group_children :
  crawl_h5_group (Group container_A)
  = Ok [("A", Dict [("B", Leaf (Np.Int (Np.Vector [1; 2; 3]))); ("C", Dict [])])]
  ∧ (∀ items,
       crawl_h5_group (Group items)
       = crawl_h5_group (Group (filter (λ p, is_other p.2 = false) items)))
  ∧ (∀ items d,
       NoDup items.*1 → crawl_h5_group (Group items) = Ok d →
       ∀ name item, (name, item) ∈ items →
         match item with
         | Group _ =>
             ∃ field_name sub,
               field_name_from_hdf_name name = Ok field_name
               ∧ crawl_h5_group item = Ok sub
               ∧ dict_get d field_name = Some (Dict sub)
         | Dataset ds =>
             ∃ field_name,
               field_name_from_hdf_name name = Ok field_name
               ∧ dict_get d field_name = Some (Leaf (read ds))
         | OtherNode => dict_get d name = None
         end).
Proof.
  split_and!.
  - by vm_compute.
  - intros items. rewrite !crawl_h5_group_items. apply crawl_items_skip.
  - intros items d Hnd Hd name item Hin.
    rewrite crawl_h5_group_items in Hd.
    destruct (crawl_items_lookup items [] d Hnd Hd) as [_ Hitems].
    specialize (Hitems name item Hin).
    destruct item as [sub|ds|]; [naive_solver..|done].
Qed.

Lemma crawl_h5_group_children_witness :
  ∃ field_name sub,
    field_name_from_hdf_name "A" = Ok field_name
    ∧ crawl_h5_group (Group [("B", Dataset (Counts (Np.Vector [1; 2; 3]))); ("C", Group [])])
      = Ok sub
    ∧ dict_get [("A", Dict [("B", Leaf (Np.Int (Np.Vector [1; 2; 3]))); ("C", Dict [])])]
        field_name = Some (Dict sub).
Proof.
  destruct crawl_h5_group_children as (_ & _ & H).
  apply (H container_A _ ltac:(vm_compute; apply NoDup_singleton) eq_refl "A"
           (Group [("B", Dataset (Counts (Np.Vector [1; 2; 3]))); ("C", Group [])])).
  apply list_elem_of_singleton. reflexivity.
Defined.

(** ** The format selector *)

Lemma lower_char_idempotent c : Py.lower_char (Py.lower_char c) = Py.lower_char c.
Proof. by destruct c as [[] [] [] [] [] [] [] []]. Qed.

Lemma lower_idempotent s : Py.lower (Py.lower s) = Py.lower s.
Proof. induction s as [|c s IH]; simpl; [done|]. by rewrite lower_char_idempotent, IH. Qed.

(** The loader looks at the selector through two tests only. *)
Lemma load_group_selector uninit file s1 s2 :
  String.eqb (Py.lower s1) "raw" = String.eqb (Py.lower s2) "raw" →
  String.eqb (Py.lower s1) "single" = String.eqb (Py.lower s2) "single" →
  load_group uninit file s1 = load_group uninit file s2.
Proof.
  intros Hraw Hsingle. unfold load_group, scaling_wanted, scale_analog_scans.
  by rewrite Hraw, Hsingle.
Qed.

Lemma loadDataFile_selector uninit fs filename s1 s2 :
  String.eqb (Py.lower s1) "raw" = String.eqb (Py.lower s2) "raw" →
  String.eqb (Py.lower s1) "single" = String.eqb (Py.lower s2) "single" →
  loadDataFile uninit fs filename s1 = loadDataFile uninit fs filename s2.
Proof.
  intros Hraw Hsingle. unfold loadDataFile.
  destruct (fs filename) as [file|]; [|done].
  destruct (negb _); [done|]. by apply load_group_selector.
Qed.

(** C10: the loader gives the same result for a selector and for its
    lower-case form, and a selector whose lower-case form is neither "raw"
    nor "single" gives the result of "double". *)
Theorem format_selector_case_insensitive uninit fs filename (s : string) :
  loadDataFile uninit fs filename s = loadDataFile uninit fs filename (Py.lower s)
  ∧ (Py.lower s ≠ "raw" → Py.lower s ≠ "single" →
     loadDataFile uninit fs filename s = loadDataFile uninit fs filename "double").
Proof.
  split.
  - apply loadDataFile_selector; by rewrite lower_idempotent.
  - intros Hraw%String.eqb_neq Hsingle%String.eqb_neq.
    apply loadDataFile_selector; by rewrite ?Hraw, ?Hsingle.
Qed.

Lemma format_selector_case_insensitive_witness :
  loadDataFile no_memory (files (sample_file "0.913" "20000.0")) "data.h5" "Float"
  = loadDataFile no_memory (files (sample_file "0.913" "20000.0")) "data.h5" "double".
Proof.
  apply (format_selector_case_insensitive no_memory (files (sample_file "0.913" "20000.0"))
           "data.h5" "Float"); by vm_compute.
Defined.

(** ** Missing scales *)

Lemma read_channel_scales_missing header :
  lacks_channel_scales header →
  read_channel_scales header
  = Raise (KeyError "Unable to read channel scale information from file.").
Proof.
  intros (h & -> & Hnew & Hold). unfold read_channel_scales. simpl.
  rewrite Hnew. rewrite bool_decide_eq_false_2 by (by intros [? ?]).
  unfold dict_getitem.
  destruct Hold as [-> | (acq & -> & Hacq)]; simpl; [done|].
  unfold dict_getitem. by rewrite Hacq.
Qed.

(** C7: when the file decodes, scaling is asked for and the channel count
    is positive, a header without scales in either layout makes the loader
    raise the [KeyError] that names the channel scale information. *)
Theorem loadDataFile_missing_channel_scales uninit (fs : filesystem)
    filename format_string file data_file_as_dict header n_a_i_channels :
  fs filename = Some file →
  Py.splitext_ext filename = ".h5" →
  decode file = Ok (data_file_as_dict, header, n_a_i_channels) →
  Py.lower format_string ≠ "raw" →
  count_positive n_a_i_channels = Ok true →
  lacks_channel_scales header →
  loadDataFile uninit fs filename format_string
  = Raise (KeyError "Unable to read channel scale information from file.").
Proof.
  intros Hfile Hext Hdecode Hraw%String.eqb_neq Hpos Hlacks.
  unfold loadDataFile, load_group, scaling_wanted, scale_analog_scans.
  rewrite Hfile, Hext, Hdecode, Hraw. simpl. rewrite Hpos. simpl.
  by rewrite read_channel_scales_missing.
Qed.

Lemma loadDataFile_missing_channel_scales_witness :
  loadDataFile no_memory (files file_without_scales) "data.h5" "double"
  = Raise (KeyError "Unable to read channel scale information from file.").
Proof.
  eapply (loadDataFile_missing_channel_scales no_memory (files file_without_scales)
            "data.h5" "double" file_without_scales).
  - reflexivity.
  - reflexivity.
  - vm_compute. reflexivity.
  - by vm_compute.
  - reflexivity.
  - eexists. split; [reflexivity|]. split; [reflexivity|]. left. reflexivity.
Defined.

(** ** The scaled samples *)

Lemma map_fmap {A B} (f : A → B) (l : list A) : map f l = f <$> l.
Proof. reflexivity. Qed.

(** The loop over the channels, on integer counts and float coefficients:
    after [j] channels the first [j] rows are the scaled rows. *)
Lemma scale_channels_counts uninit ncols (counts : list (list Z)) nk
    (coefficients : list (list Py.float)) (inverse : list Py.float) (j : nat) :
  (j ≤ length inverse)%nat → (j ≤ length counts)%nat →
  (j ≤ length coefficients)%nat →
  ∃ rows,
    foldM (scale_channel inverse (Leaf (Np.Float64 (Np.Matrix nk coefficients)))
             (Np.Int (Np.Matrix ncols counts)))
      (seq 0 j) (Np.empty uninit (Np.Int (Np.Matrix ncols counts)))
    = Ok (Np.Matrix ncols rows)
    ∧ length rows = length counts
    ∧ ∀ i inv c xs,
        (i < j)%nat → inverse !! i = Some inv → coefficients !! i = Some c →
        counts !! i = Some xs →
        rows !! i
        = Some ((λ x, Py.fmul inv (Np.polyval (rev c) (S754_zero false) (Py.float_of_Z x)))
                  <$> xs).
Proof.
  induction j as [|j IH]; intros Hinv Hcounts Hcoef.
  - eexists. simpl. split; [done|]. split; [|intros; lia].
    by rewrite length_map, length_seq.
  - destruct IH as (rows & Hloop & Hlen & Hrows); [lia..|].
    rewrite seq_S, foldM_app, Hloop. simpl.
    destruct (lookup_lt_is_Some_2 inverse j) as [inv Hi]; [lia|].
    destruct (lookup_lt_is_Some_2 coefficients j) as [c Hc]; [lia|].
    destruct (lookup_lt_is_Some_2 counts j) as [xs Hx]; [lia|].
    unfold scale_channel. rewrite Hi. simpl. rewrite Hc. simpl. rewrite Hx. simpl.
    rewrite decide_True by lia.
    eexists. split; [done|]. split; [by rewrite length_insert|].
    intros i inv' c' xs' Hlt Hi' Hc' Hx'.
    destruct (decide (i = j)) as [->|Hne].
    + rewrite list_lookup_insert_eq by lia.
      rewrite Hi in Hi'. rewrite Hc in Hc'. rewrite Hx in Hx'.
      injection Hi' as <-. injection Hc' as <-. injection Hx' as <-.
      by rewrite !map_fmap, <- list_fmap_compose.
    + rewrite list_lookup_insert_ne by done. apply Hrows; [lia|done..].
Qed.

Lemma sum_of_powers_shift (l : list Qc) (x : Qc) (k : nat) :
  foldr Qcplus 0%Qc (imap (λ j cj, (cj * x ^ (S k + j)%nat)%Qc) l)
  = (foldr Qcplus 0 (imap (λ j cj, cj * x ^ (k + j)%nat) l) * x)%Qc.
Proof.
  revert k. induction l as [|a l IH]; intros k; simpl; [ring|].
  rewrite (imap_ext _ (λ j cj, (cj * x ^ (S (S k) + j)%nat)%Qc) l).
  2:{ intros i y _. simpl. by rewrite Nat.add_succ_r. }
  rewrite (imap_ext ((λ j cj, (cj * x ^ (k + j)%nat)%Qc) ∘ S)
             (λ j cj, (cj * x ^ (S k + j)%nat)%Qc) l).
  2:{ intros i y _. simpl. by rewrite Nat.add_succ_r. }
  rewrite IH, Nat.add_0_r. simpl. ring.
Qed.

(** Horner's scheme on the reversed coefficients is the sum of the
    [c_j * x^j], when the arithmetic is exact. *)
Lemma horner_rev_sum_of_powers (c : list Qc) (x : Qc) :
  Np.horner Qcplus Qcmult x (rev c) 0%Qc = sum_of_powers c x.
Proof.
  unfold Np.horner, sum_of_powers.
  induction c as [|c0 c IH]; simpl; [done|].
  rewrite fold_left_app. simpl. rewrite IH.
  rewrite (imap_ext ((λ j cj, (cj * x ^ j)%Qc) ∘ S)
             (λ j cj, (cj * x ^ (1 + j)%nat)%Qc) c)
    by (intros i y _; reflexivity).
  rewrite sum_of_powers_shift. simpl. ring.
Qed.

(** C5: on integer counts and float coefficients, with a scale for each of
    the first rows, the double format returns an array in which the sample
    of channel [i] at raw count [x] is [1/scale[i]] times [polyval] of the
    reversed coefficient row [i] at [x].  [polyval] is Horner's scheme,
    which on the reversed row is the sum of [coefficients[i][j] * x^j] in
    exact arithmetic: the stored row is lowest degree first.  With scale
    2.0 and coefficients [0, 1] the raw count 10 scales to 5.0. *)
Theorem scaled_sample_value :
  (∀ uninit ncols (counts : list (list Z)) (channel_scales : list Py.float) nk
     (coefficients : list (list Py.float)),
     (length channel_scales ≤ length counts)%nat →
     (length channel_scales ≤ length coefficients)%nat →
     ∃ rows,
       scaled_double_analog_data_from_raw uninit
         (Leaf (Np.Int (Np.Matrix ncols counts))) channel_scales
         (Leaf (Np.Float64 (Np.Matrix nk coefficients)))
       = Ok (Np.Float64 (Np.Matrix ncols rows))
       ∧ ∀ i scale c xs k x,
           channel_scales !! i = Some scale → coefficients !! i = Some c →
           counts !! i = Some xs → xs !! k = Some x →
           rows !! i ≫= (.!! k)
           = Some (Py.fmul (Py.fdiv one scale)
                     (Np.polyval (rev c) (S754_zero false) (Py.float_of_Z x))))
  ∧ (∀ p0 ps x,
       Np.polyval (p0 :: ps) (S754_zero false) x
       = Np.horner Py.fadd Py.fmul x ps (Py.fadd (S754_zero false) p0))
  ∧ (∀ (c : list Qc) (x : Qc),
       Np.horner Qcplus Qcmult x (rev c) 0%Qc = sum_of_powers c x)
  ∧ scaled_double_analog_data_from_raw no_memory
      (Leaf (Np.Int (Np.Matrix 1 [[10]]))) [Py.literal "2.0"] unit_coefficients
    = Ok (Np.Float64 (Np.Matrix 1 [[Py.literal "5.0"]])).
Proof.
  split_and!; [|done|apply horner_rev_sum_of_powers|by vm_compute].
  intros uninit ncols counts channel_scales nk coefficients Hcounts Hcoef.
  destruct (scale_channels_counts uninit ncols counts nk coefficients
              (map (Py.fdiv one) channel_scales) (length channel_scales))
    as (rows & Hloop & _ & Hrows); [by rewrite length_map|done..|].
  exists rows. split.
  - unfold scaled_double_analog_data_from_raw, as_array.
    change (Ok ?a ≫= ?f) with (f a). cbv beta. by rewrite Hloop.
  - intros i scale c xs k x Hscale Hc Hxs Hx.
    rewrite (Hrows i (Py.fdiv one scale) c xs); [|by eapply lookup_lt_Some| |done..].
    + simpl. by rewrite list_lookup_fmap, Hx.
    + by rewrite map_fmap, list_lookup_fmap, Hscale.
Qed.

Lemma scaled_sample_value_witness :
  ∃ rows,
    scaled_double_analog_data_from_raw no_memory
      (Leaf (Np.Int (Np.Matrix 1 [[10]]))) [Py.literal "2.0"]
      (Leaf (Np.Float64 (Np.Matrix 2 [[Py.literal "0.0"; Py.literal "1.0"]])))
    = Ok (Np.Float64 (Np.Matrix 1 rows))
    ∧ rows !! 0%nat ≫= (.!! 0%nat) = Some (Py.literal "5.0").
Proof.
  destruct scaled_sample_value as (H & _).
  destruct (H no_memory 1%nat [[10]] [Py.literal "2.0"] 2%nat
              [[Py.literal "0.0"; Py.literal "1.0"]]) as (rows & Hout & Hrows).
  - simpl. lia.
  - simpl. lia.
  - exists rows. split; [exact Hout|].
    apply (Hrows 0%nat (Py.literal "2.0") [Py.literal "0.0"; Py.literal "1.0"]
             [10] 0%nat 10); reflexivity.
Defined.

(** ** The raw and the single formats *)

Section dict_more.
Context {V : Type}.
Implicit Types (d : list (string * V)) (k : string) (v : V).

Lemma dict_set_set d k v v' : dict_set (dict_set d k v) k v' = dict_set d k v'.
Proof.
  induction d as [|[k0 v0] d IH]; simpl.
  - by rewrite String.eqb_refl.
  - destruct (String.eqb k0 k) eqn:E; simpl.
    + by rewrite String.eqb_refl.
    + by rewrite E, IH.
Qed.

Lemma dict_get_app_r d1 d2 k : k ∉ keys d1 → dict_get (d1 ++ d2) k = dict_get d2 k.
Proof.
  induction d1 as [|[k0 v0] d1 IH]; simpl; [done|].
  intros [Hne Hk]%not_elem_of_cons.
  apply not_eq_sym, String.eqb_neq in Hne. rewrite Hne. auto.
Qed.

Lemma dict_set_app_r d1 d2 k v v' :
  k ∉ keys d1 → dict_set (d1 ++ (k, v) :: d2) k v' = d1 ++ (k, v') :: d2.
Proof.
  induction d1 as [|[k0 v0] d1 IH]; simpl.
  - by rewrite String.eqb_refl.
  - intros [Hne Hk]%not_elem_of_cons.
    apply not_eq_sym, String.eqb_neq in Hne. rewrite Hne. f_equal. auto.
Qed.

End dict_more.

Lemma mapM_fmap {A B C} (f : A → result B) (g : B → C) (l : list A) :
  mapM (λ x, g <$> f x) l = fmap (M:=list) g <$> mapM f l.
Proof.
  induction l as [|x l IH]; simpl; [done|].
  destruct (f x); simpl; [|done]. rewrite IH. by destruct (mapM f l).
Qed.

(** On a mapping with distinct keys the loop over the fields works field
    by field. *)
Lemma foldM_scale_field uninit single scales coefficients (done todo : dict) :
  NoDup (keys (done ++ todo)) →
  foldM (scale_field uninit single scales coefficients) (keys todo) (done ++ todo)
  = (done ++.) <$> mapM (scale_entry uninit single scales coefficients) todo.
Proof.
  revert done. induction todo as [|[k v] todo IH]; intros done Hnd; simpl.
  { by rewrite app_nil_r. }
  assert (Hk : k ∉ keys done).
  { unfold keys in Hnd. rewrite fmap_app, fmap_cons in Hnd.
    apply NoDup_app in Hnd as (_ & Hnd & _). intros Hin.
    apply (Hnd _ Hin). by left. }
  assert (Hnext : ∀ v', NoDup (keys ((done ++ [(k, v')]) ++ todo))).
  { intros v'. unfold keys in *. rewrite <- app_assoc. simpl.
    by rewrite fmap_app, fmap_cons in Hnd |- *. }
  unfold scale_field, scale_entry. simpl.
  destruct (is_sweep k); simpl.
  - unfold dict_getitem. rewrite dict_get_app_r by done. simpl.
    rewrite String.eqb_refl. simpl.
    destruct (getitem v "analogScans") as [counts|]; simpl; [|done].
    match goal with
    | |- (?m ≫= _) ≫= _ = _ => destruct m as [scaled|]; simpl; [|done]
    end.
    destruct (setitem v "analogScans" (Leaf scaled)) as [entry'|]; simpl; [|done].
    rewrite dict_set_app_r by done.
    change (done ++ (k, entry') :: todo) with (done ++ [(k, entry')] ++ todo).
    rewrite app_assoc, IH by apply Hnext.
    destruct (mapM _ todo); simpl; [|done]. by rewrite <- app_assoc.
  - change (done ++ (k, v) :: todo) with (done ++ [(k, v)] ++ todo).
    rewrite app_assoc, IH by apply Hnext.
    destruct (mapM _ todo); simpl; [|done]. by rewrite <- app_assoc.
Qed.

Lemma mapM_ext {A B} (f g : A → result B) (l : list A) :
  (∀ x, f x = g x) → mapM f l = mapM g l.
Proof. intros H. induction l as [|x l IH]; simpl; [done|]. by rewrite H, IH. Qed.

Lemma scaled_double_Float64 uninit data channel_scales scaling_coefficients out :
  scaled_double_analog_data_from_raw uninit data channel_scales scaling_coefficients
  = Ok out →
  ∃ a, out = Np.Float64 a.
Proof.
  unfold scaled_double_analog_data_from_raw.
  intros (d & _ & (a & _ & [= <-])%bind_Ok)%bind_Ok. eauto.
Qed.

(** The single format on a field is the double format on it, narrowed. *)
Lemma scale_entry_single uninit scales coefficients kv :
  scale_entry uninit true scales coefficients kv
  = narrow_field <$> scale_entry uninit false scales coefficients kv.
Proof.
  destruct kv as [k v]. unfold scale_entry, narrow_field. simpl.
  destruct (is_sweep k) eqn:Hk; simpl; [|by rewrite Hk].
  destruct (getitem v "analogScans") as [counts|] eqn:Hcounts; simpl; [|done].
  unfold scaled_single_analog_data_from_raw.
  destruct (scaled_double_analog_data_from_raw _ _ _ _) as [out|] eqn:Hout;
    simpl; [|done].
  apply scaled_double_Float64 in Hout as [a ->]. simpl.
  destruct v as [b|e]; [by destruct b|]. simpl. rewrite Hk.
  by rewrite dict_get_set_eq, dict_set_set.
Qed.

Lemma crawl_items_NoDup items : ∀ res d,
  NoDup (keys res) → crawl_items items res = Ok d → NoDup (keys d).
Proof.
  induction items as [|[name item] items IH]; intros res d Hnd; simpl.
  { by intros [= <-]. }
  destruct item as [sub|ds|].
  - intros (field_name & _ & (s & _ & Hd)%bind_Ok)%bind_Ok.
    eapply IH; [|done]. by apply keys_dict_set_NoDup.
  - intros (field_name & _ & Hd)%bind_Ok.
    eapply IH; [|done]. by apply keys_dict_set_NoDup.
  - by apply IH.
Qed.

(** A fix of a sample rate rewrites the header entry only. *)
Lemma fix_sample_rate_frame section whole_ticks d h d' h' :
  fix_sample_rate section whole_ticks (d, h) = Ok (d', h') →
  (NoDup (keys d) → NoDup (keys d'))
  ∧ ∀ k, k ≠ "header" → dict_get d' k = dict_get d k.
Proof.
  unfold fix_sample_rate.
  intros (sec & _ & (rate & _ & (nominal & _ & (ticks & _ & (r & _ & H)%bind_Ok
    )%bind_Ok)%bind_Ok)%bind_Ok)%bind_Ok.
  destruct (negb _).
  - apply bind_Ok in H as (n & _ & (actual & _ & (sec' & _ & (header' & _ & H)%bind_Ok
      )%bind_Ok)%bind_Ok).
    injection H as <- <-. split.
    + apply keys_dict_set_NoDup.
    + intros k Hk. by apply dict_get_set_ne.
  - by injection H as <- <-.
Qed.

Lemma correct_sample_rates_frame version d h d' h' :
  correct_sample_rates version (d, h) = Ok (d', h') →
  (NoDup (keys d) → NoDup (keys d'))
  ∧ ∀ k, k ≠ "header" → dict_get d' k = dict_get d k.
Proof.
  unfold correct_sample_rates. destruct (Py.fltb _ _).
  - intros ([d1 h1] & H1 & H2)%bind_Ok.
    apply fix_sample_rate_frame in H1 as [Hnd1 Hget1].
    apply fix_sample_rate_frame in H2 as [Hnd2 Hget2].
    split; [auto|]. intros k Hk. by rewrite Hget2, Hget1.
  - by intros [= <- <-].
Qed.

Lemma decode_frame file d0 d header n_a_i_channels :
  crawl_h5_group (Group file) = Ok d0 →
  decode file = Ok (d, header, n_a_i_channels) →
  NoDup (keys d) ∧ ∀ k, k ≠ "header" → dict_get d k = dict_get d0 k.
Proof.
  intros Hcrawl. unfold decode. rewrite Hcrawl. simpl.
  intros (h0 & _ & (version & _ & ([d1 h1] & Hfix & (n & _ & H)%bind_Ok
    )%bind_Ok)%bind_Ok)%bind_Ok.
  injection H as <- <- <-.
  apply correct_sample_rates_frame in Hfix as [Hnd Hget].
  split; [|done]. apply Hnd.
  rewrite crawl_h5_group_items in Hcrawl.
  eapply crawl_items_NoDup; [|done]. apply NoDup_nil_2.
Qed.

Lemma scale_analog_scans_single uninit header d :
  NoDup (keys d) →
  scale_analog_scans uninit "single" header d
  = narrow_sweeps <$> scale_analog_scans uninit "double" header d.
Proof.
  intros Hnd. unfold scale_analog_scans.
  destruct (read_channel_scales header); simpl; [|done].
  destruct (read_is_active header); simpl; [|done].
  destruct (active_scales _ _) as [scales|]; simpl; [|done].
  destruct (read_scaling_coefficients header) as [coefficients|]; simpl; [|done].
  change (String.eqb (Py.lower "single") "single") with true.
  change (String.eqb (Py.lower "double") "single") with false.
  pose proof (foldM_scale_field uninit true scales coefficients [] d Hnd) as Hs.
  pose proof (foldM_scale_field uninit false scales coefficients [] d Hnd) as Hd.
  change ([] ++ d) with d in Hs, Hd. rewrite Hs, Hd.
  rewrite (mapM_ext _ _ _ (scale_entry_single uninit scales coefficients)).
  rewrite mapM_fmap.
  destruct (mapM (scale_entry uninit false scales coefficients) d); reflexivity.
Qed.

(** C6: with the format "raw" every field of the tree other than the
    header is as the crawler read it, so the analog scans are the raw
    counts; and the result of the format "single" is the result of the
    format "double" in which, when the scaling pass runs, the analog scans
    of every sweep and trial are narrowed to single precision. *)
Theorem load_raw_and_single uninit (fs : filesystem) (filename : string) :
  (∀ format_string file d0 d,
     Py.lower format_string = "raw" →
     fs filename = Some file →
     crawl_h5_group (Group file) = Ok d0 →
     loadDataFile uninit fs filename format_string = Ok d →
     ∀ k, k ≠ "header" → dict_get d k = dict_get d0 k)
  ∧ loadDataFile uninit fs filename "single"
    = (λ d, if scaling_runs (fs filename) then narrow_sweeps d else d)
        <$> loadDataFile uninit fs filename "double".
Proof.
  split.
  - intros format_string file d0 d Hraw Hfile Hcrawl.
    unfold loadDataFile, load_group, scaling_wanted. rewrite Hfile, Hraw.
    destruct (negb (String.eqb (Py.splitext_ext filename) ".h5")); [done|].
    destruct (decode file) as [[[d1 header] n]|] eqn:Hdecode; simpl; [|done].
    intros [= <-]. by eapply decode_frame.
  - unfold loadDataFile, scaling_runs, load_group, scaling_wanted.
    destruct (fs filename) as [file|]; [|done].
    destruct (negb (String.eqb (Py.splitext_ext filename) ".h5")); [done|].
    destruct (decode file) as [[[d header] n]|] eqn:Hdecode; simpl; [|done].
    destruct (count_positive n) as [[]|]; simpl; [|done..].
    apply scale_analog_scans_single.
    unfold decode in Hdecode.
    destruct (crawl_h5_group (Group file)) as [d0|] eqn:Hcrawl; [|done].
    by eapply (decode_frame file d0); [|unfold decode; rewrite Hcrawl].
Qed.

Lemma load_raw_and_single_witness :
  ∃ d0 d,
    crawl_h5_group (Group (sample_file "0.913" "20000.0")) = Ok d0
    ∧ loadDataFile no_memory (files (sample_file "0.913" "20000.0")) "data.h5" "RAW" = Ok d
    ∧ dict_get d "sweep_0001" = dict_get d0 "sweep_0001".
Proof.
  destruct (load_raw_and_single no_memory (files (sample_file "0.913" "20000.0")) "data.h5")
    as [H _].
  eexists _, _. split; [|split].
  - vm_compute. reflexivity.
  - vm_compute. reflexivity.
  - apply (H "RAW" (sample_file "0.913" "20000.0")); [reflexivity..|discriminate].
Defined.

(** ** More on the normaliser and the crawler *)

Lemma field_name_by_float hdf_name :
  match Py.float_of_string hdf_name with
  | Ok (S754_infinity _) => field_name_from_hdf_name hdf_name = Raise OverflowError
  | _ => field_name_from_hdf_name hdf_name = Ok hdf_name
  end.
Proof.
  unfold field_name_from_hdf_name.
  destruct (Py.float_of_string hdf_name) as [x|e] eqn:Hx; simpl.
  - destruct x as [s|s| |s m e]; simpl; auto.
    destruct (Py.fraction s m e) as [n d]; simpl.
    by destruct (n =? _).
  - by apply float_of_string_raises in Hx as ->.
Qed.

(** X1: the normaliser raises [OverflowError] exactly on the names that
    [float] reads as an infinity, and returns every other name unchanged:
    it raises neither [RuntimeError] nor [ValueError]. *)
Theorem field_name_outcomes hdf_name :
  match Py.float_of_string hdf_name with
  | Ok (S754_infinity _) => field_name_from_hdf_name hdf_name = Raise OverflowError
  | _ => field_name_from_hdf_name hdf_name = Ok hdf_name
  end.
Proof. apply field_name_by_float. Qed.

Lemma field_name_accepted name :
  field_name_from_hdf_name name
  = if name_accepted name then Ok name else Raise OverflowError.
Proof.
  pose proof (field_name_by_float name) as H. unfold name_accepted.
  destruct (Py.float_of_string name) as [[]|]; done.
Qed.

Lemma h5node_nested_ind (P : h5node → Prop) :
  (∀ items, Forall (λ p, P p.2) items → P (Group items)) →
  (∀ d, P (Dataset d)) → P OtherNode → ∀ node, P node.
Proof.
  intros HG HD HO. fix IH 1. intros [items|d|]; [|apply HD|apply HO].
  apply HG. revert items. fix IHl 1. intros [|[name item] items].
  - constructor.
  - constructor; [apply IH|apply IHl].
Qed.

Local Arguments names_accepted : simpl never.

Lemma crawl_items_outcome items : ∀ res,
  Forall (λ p, ∀ sub, p.2 = Group sub →
            if names_accepted p.2 then ∃ d, crawl_h5_group p.2 = Ok d
            else crawl_h5_group p.2 = Raise OverflowError) items →
  if names_accepted (Group items) then ∃ d, crawl_items items res = Ok d
  else crawl_items items res = Raise OverflowError.
Proof.
  induction items as [|[name item] items IH]; intros res Hitems.
  { simpl. eauto. }
  apply Forall_cons in Hitems as [Hitem Hitems].
  change (names_accepted (Group ((name, item) :: items)))
    with (match item with
          | OtherNode => true
          | _ => name_accepted name && names_accepted item
          end && names_accepted (Group items)).
  simpl in Hitem |- *. destruct item as [sub|ds|].
  - rewrite field_name_accepted. destruct (name_accepted name); simpl; [|done].
    specialize (Hitem sub eq_refl).
    destruct (names_accepted (Group sub)); simpl.
    + destruct Hitem as [d ->]. simpl. apply IH, Hitems.
    + by rewrite Hitem.
  - rewrite field_name_accepted. destruct (name_accepted name); simpl; [|done].
    apply IH, Hitems.
  - apply IH, Hitems.
Qed.

Lemma crawl_node_outcome node : ∀ sub,
  node = Group sub →
  if names_accepted node then ∃ d, crawl_h5_group node = Ok d
  else crawl_h5_group node = Raise OverflowError.
Proof.
  induction node as [items IH|ds|] using h5node_nested_ind; intros sub; [|done..].
  intros _. rewrite crawl_h5_group_items. by apply crawl_items_outcome.
Qed.

(** X2: the crawl of a group succeeds when every group and dataset in it,
    at every depth, has an accepted name, and raises [OverflowError]
    otherwise: a name such as "inf" or "1e999" anywhere in the file makes
    the crawl fail, and nothing else does. *)
Theorem crawl_h5_group_outcome items :
  if names_accepted (Group items) then ∃ d, crawl_h5_group (Group items) = Ok d
  else crawl_h5_group (Group items) = Raise OverflowError.
Proof. by apply (crawl_node_outcome _ items). Qed.



Lemma keys_dict_set_new {V} (d : list (string * V)) k v :
  k ∉ keys d → keys (dict_set d k v) = keys d ++ [k].
Proof.
  induction d as [|[k0 v0] d IH]; simpl; [done|].
  intros [Hne Hk]%not_elem_of_cons.
  apply not_eq_sym, String.eqb_neq in Hne. rewrite Hne. simpl.
  f_equal. by apply IH.
Qed.

Lemma crawl_items_keys items : ∀ res d,
  NoDup (keys res ++ items.*1) → crawl_items items res = Ok d →
  keys d = keys res ++ crawled_names items.
Proof.
  unfold crawled_names.
  induction items as [|[name item] items IH]; intros res d Hnd Hd; simpl in Hd.
  { injection Hd as <-. by rewrite app_nil_r. }
  rewrite fmap_cons in Hnd. simpl in Hnd.
  assert (Hname : name ∉ keys res).
  { apply NoDup_app in Hnd as (_ & Hnd & _). intros Hin.
    apply (Hnd _ Hin). by left. }
  assert (Hnext : ∀ v, NoDup (keys (dict_set res name v) ++ items.*1)).
  { intros v. rewrite keys_dict_set_new, <- app_assoc by done. done. }
  destruct item as [sub|ds|].
  - apply bind_Ok in Hd as (field_name & Hf & Hd).
    pose proof (field_name_Ok _ _ Hf) as ->.
    apply bind_Ok in Hd as (s & Hs & Hd).
    rewrite filter_cons_True by done.
    rewrite (IH _ _ (Hnext _) Hd), keys_dict_set_new, <- app_assoc by done. done.
  - apply bind_Ok in Hd as (field_name & Hf & Hd).
    pose proof (field_name_Ok _ _ Hf) as ->.
    rewrite filter_cons_True by done.
    rewrite (IH _ _ (Hnext _) Hd), keys_dict_set_new, <- app_assoc by done. done.
  - rewrite filter_cons_False by done. apply IH; [|done].
    apply NoDup_app in Hnd as (Hres & Hdis & Hitems).
    apply NoDup_cons in Hitems as [_ Hitems].
    apply NoDup_app. split_and!; [done| |done].
    intros k Hk Hin. apply (Hdis k Hk). by right.
Qed.

(** X4: the crawled mapping lists the groups and datasets of the group in
    the order of the container (for a group with distinct names): its keys
    are their names, without those of the objects of other kinds. *)
Theorem crawl_h5_group_key_order items d :
  NoDup items.*1 → crawl_h5_group (Group items) = Ok d →
  keys d = crawled_names items.
Proof.
  intros Hnd Hd. rewrite crawl_h5_group_items in Hd.
  by apply (crawl_items_keys items [] d).
Qed.

Lemma crawl_h5_group_key_order_witness :
  keys [("b", Leaf (Np.Bytes "x")); ("a", Dict [])] = ["b"; "a"].
Proof.
  apply (crawl_h5_group_key_order
           [("b", Dataset (Text "x")); ("skipped", OtherNode); ("a", Group [])]).
  - vm_compute. repeat constructor; rewrite ?elem_of_cons, ?elem_of_nil; naive_solver.
  - by vm_compute.
Defined.

(** ** More on the correction of the sample rates *)

Lemma keys_dict_set_present {V} (d : list (string * V)) k v v' :
  dict_get d k = Some v → keys (dict_set d k v') = keys d.
Proof.
  induction d as [|[k0 v0] d IH]; simpl; [done|].
  destruct (String.eqb k0 k) eqn:E; simpl.
  - apply String.eqb_eq in E as ->. done.
  - intros H. f_equal. by apply IH.
Qed.

Lemma fix_sample_rate_ticks section whole_ticks d h :
  fix_sample_rate section whole_ticks (d, h)
  = t ← nominal_ticks h section;
    rounded ← Py.round t;
    if negb (Py.eq_int t rounded) then
      n ← whole_ticks t;
      actual ← Py.truediv_int timebase_frequency n;
      sec ← getitem h section;
      sec' ← setitem sec "SampleRate" (Leaf (Np.Float64 (Np.Scalar actual)));
      header' ← setitem h section sec';
      Ok (dict_set d "header" header', header')
    else Ok (d, h).
Proof.
  unfold fix_sample_rate, nominal_ticks.
  destruct (getitem h section) as [sec|]; simpl; [|done].
  destruct (getitem sec "SampleRate") as [rate|]; simpl; [|done].
  destruct (py_float rate) as [x|]; simpl; [|done].
  done.
Qed.

Lemma fix_sample_rate_header_only section whole_ticks d h d' h' :
  dict_get d "header" = Some h →
  fix_sample_rate section whole_ticks (d, h) = Ok (d', h') →
  keys d' = keys d
  ∧ dict_get d' "header" = Some h'
  ∧ (∀ k, k ≠ "header" → dict_get d' k = dict_get d k)
  ∧ (∀ k, k ≠ section → getitem h' k = getitem h k).
Proof.
  intros Hheader. unfold fix_sample_rate.
  intros (sec & _ & (rate & _ & (nominal & _ & (ticks & _ & (r & _ & H)%bind_Ok
    )%bind_Ok)%bind_Ok)%bind_Ok)%bind_Ok.
  destruct (negb _); [|by injection H as <- <-].
  apply bind_Ok in H as (n & _ & (actual & _ & (sec' & _ & (header' & Hset & H)%bind_Ok
    )%bind_Ok)%bind_Ok).
  injection H as <- <-. split_and!.
  - by eapply keys_dict_set_present.
  - apply dict_get_set_eq.
  - intros k Hk. by apply dict_get_set_ne.
  - intros k Hk. destruct h as [a|hd]; [by destruct a|].
    injection Hset as <-. simpl. unfold dict_getitem.
    by rewrite dict_get_set_ne.
Qed.

Lemma correct_sample_rates_keeps version d h d' h' :
  dict_get d "header" = Some h →
  correct_sample_rates version (d, h) = Ok (d', h') →
  keys d' = keys d
  ∧ dict_get d' "header" = Some h'
  ∧ (∀ k, k ≠ "header" → dict_get d' k = dict_get d k)
  ∧ (∀ k, k ≠ "Acquisition" → k ≠ "Stimulation" → getitem h' k = getitem h k).
Proof.
  intros Hheader. unfold correct_sample_rates. destruct (Py.fltb _ _).
  - intros ([d1 h1] & H1 & H2)%bind_Ok.
    apply fix_sample_rate_header_only in H1 as (Hk1 & Hh1 & Hd1 & Hg1); [|done].
    apply fix_sample_rate_header_only in H2 as (Hk2 & Hh2 & Hd2 & Hg2); [|done].
    split_and!; [congruence|done|..].
    + intros k Hk. by rewrite Hd2, Hd1.
    + intros k Ha Hs. by rewrite Hg2, Hg1.
  - intros [= <- <-]. done.
Qed.

(** X5: the correction pass rewrites the header entry of the tree and
    nothing else: the keys of the tree keep their order, the other fields
    are untouched, the header stored in the tree is the corrected header,
    and in the header only the Acquisition and Stimulation groups can
    change. *)
Theorem correct_sample_rates_header_only version d h d' h' :
  dict_get d "header" = Some h →
  correct_sample_rates version (d, h) = Ok (d', h') →
  keys d' = keys d
  ∧ dict_get d' "header" = Some h'
  ∧ (∀ k, k ≠ "header" → dict_get d' k = dict_get d k)
  ∧ (∀ k, k ≠ "Acquisition" → k ≠ "Stimulation" → getitem h' k = getitem h k).
Proof. apply correct_sample_rates_keeps. Qed.

Lemma correct_sample_rates_header_only_witness :
  keys [("header", header_50MHz); ("sweep_0001", Dict [])] = ["header"; "sweep_0001"]
  ∧ dict_get [("header", header_50MHz); ("sweep_0001", Dict [])] "header"
    = Some header_50MHz.
Proof.
  destruct (correct_sample_rates_header_only (S754_zero false)
              [("header", header_40MHz); ("sweep_0001", Dict [])] header_40MHz
              [("header", header_50MHz); ("sweep_0001", Dict [])] header_50MHz)
    as (H1 & H2 & _); [reflexivity|by vm_compute|].
  split; [exact H1|exact H2].
Defined.

Lemma fix_sample_rate_whole section whole_ticks d h t :
  nominal_ticks h section = Ok t → whole t →
  fix_sample_rate section whole_ticks (d, h) = Ok (d, h).
Proof.
  intros Ht (n & Hr & He). rewrite fix_sample_rate_ticks, Ht. simpl.
  rewrite Hr. simpl. by rewrite He.
Qed.

(** X6: a file of an old version whose two nominal rates already give
    whole numbers of ticks goes through the correction pass unchanged. *)
Theorem correct_sample_rates_whole_ticks version d h ta ts :
  nominal_ticks h "Acquisition" = Ok ta → whole ta →
  nominal_ticks h "Stimulation" = Ok ts → whole ts →
  correct_sample_rates version (d, h) = Ok (d, h).
Proof.
  intros Ha Hwa Hs Hws.
  unfold correct_sample_rates. destruct (Py.fltb _ _); [|done].
  rewrite (fix_sample_rate_whole "Acquisition" _ d h ta) by done.
  by apply (fix_sample_rate_whole "Stimulation" _ d h ts).
Qed.

Lemma correct_sample_rates_whole_ticks_witness :
  correct_sample_rates (S754_zero false) ([("header", header_20kHz)], header_20kHz)
  = Ok ([("header", header_20kHz)], header_20kHz).
Proof.
  eapply (correct_sample_rates_whole_ticks (S754_zero false) _ header_20kHz).
  - vm_compute. reflexivity.
  - eexists. split; vm_compute; reflexivity.
  - vm_compute. reflexivity.
  - eexists. split; vm_compute; reflexivity.
Defined.

Lemma below_one_floor t : below_one t → Py.floor t = Ok 0.
Proof.
  intros (m & e & -> & He & Hm). unfold Py.floor, Py.fraction, cond_Zopp.
  rewrite (proj2 (Z.leb_gt 0 e)) by done. cbv beta iota zeta.
  by rewrite Z.div_small by lia.
Qed.

Lemma below_one_not_whole t n : below_one t → Py.round t = Ok n → Py.eq_int t n = false.
Proof.
  intros (m & e & -> & He & Hm).
  unfold Py.round, Py.eq_int, Py.fraction, cond_Zopp.
  rewrite (proj2 (Z.leb_gt 0 e)) by done. cbv beta iota zeta.
  unfold Py.round_half_even. rewrite Z.div_small, Z.mod_small by lia.
  intros Hn. apply Z.eqb_neq.
  destruct (2 * Z.pos m ?= 2 ^ (- e)); injection Hn as <-;
    change (Z.even 0) with true; cbv iota; lia.
Qed.

(** X7: in a file of an old version, a nominal acquisition rate that gives
    less than one tick per sample (a rate above the 100 MHz timebase)
    makes the correction pass raise [ZeroDivisionError]: [math.floor]
    gives 0 ticks and the rate is divided by it. *)
Theorem correct_sample_rates_below_one_tick version d h t :
  Py.fltb version fixed_version = true →
  nominal_ticks h "Acquisition" = Ok t → below_one t →
  correct_sample_rates version (d, h) = Raise ZeroDivisionError.
Proof.
  intros Hv Ht Hbelow. unfold correct_sample_rates. rewrite Hv.
  rewrite fix_sample_rate_ticks, Ht. simpl.
  destruct (Py.round t) as [n|err] eqn:Hr.
  - simpl. rewrite (below_one_not_whole t n), (below_one_floor t) by done. done.
  - destruct Hbelow as (m & e & -> & _). unfold Py.round in Hr.
    by destruct (Py.fraction false m e).
Qed.

Lemma correct_sample_rates_below_one_tick_witness :
  correct_sample_rates (S754_zero false) ([("header", header_150MHz)], header_150MHz)
  = Raise ZeroDivisionError.
Proof.
  eapply (correct_sample_rates_below_one_tick (S754_zero false) _ header_150MHz).
  - reflexivity.
  - vm_compute. reflexivity.
  - eexists _, _. split; [reflexivity|]. split; [done|]. by vm_compute.
Defined.

(** ** Missing and malformed entries of the header *)

(** X8: a file without a [header] entry at its root makes the loader raise
    [KeyError] on ["header"], for every format. *)
Theorem load_group_missing_header uninit file d format_string :
  crawl_h5_group (Group file) = Ok d → dict_get d "header" = None →
  load_group uninit file format_string = Raise (KeyError "header").
Proof.
  intros Hcrawl Hheader. unfold load_group, decode, dict_getitem.
  by rewrite Hcrawl; simpl; rewrite Hheader.
Qed.

Lemma load_group_missing_header_witness :
  load_group no_memory file_without_header "raw" = Raise (KeyError "header").
Proof.
  eapply (load_group_missing_header no_memory file_without_header).
  - vm_compute. reflexivity.
  - reflexivity.
Defined.

(** X9: a file whose header has no [VersionString] is taken for an old
    one and goes through the correction of the sample rates; when its
    header has no [Acquisition] group either, the loader raises [KeyError]
    on ["Acquisition"], for every format, "raw" included. *)
Theorem load_group_old_file_needs_acquisition uninit file d h format_string :
  crawl_h5_group (Group file) = Ok d →
  dict_get d "header" = Some (Dict h) →
  dict_get h "VersionString" = None →
  dict_get h "Acquisition" = None →
  load_group uninit file format_string = Raise (KeyError "Acquisition").
Proof.
  intros Hcrawl Hheader Hversion Hacq.
  unfold load_group, decode, dict_getitem. rewrite Hcrawl. simpl.
  rewrite Hheader. simpl. unfold resolve_version. simpl. rewrite Hversion.
  rewrite bool_decide_eq_false_2 by (by intros [? ?]). simpl.
  unfold correct_sample_rates.
  change (Py.fltb (S754_zero false) fixed_version) with true. simpl.
  unfold dict_getitem. by rewrite Hacq.
Qed.

Lemma load_group_old_file_needs_acquisition_witness :
  load_group no_memory file_without_acquisition "raw" = Raise (KeyError "Acquisition").
Proof.
  eapply (load_group_old_file_needs_acquisition no_memory file_without_acquisition).
  - vm_compute. reflexivity.
  - reflexivity.
  - reflexivity.
  - reflexivity.
Defined.

(** X10: a version string that [float] cannot read makes the loader raise
    [ValueError], for every format. *)
Theorem load_group_malformed_version uninit file d h text format_string :
  crawl_h5_group (Group file) = Ok d →
  dict_get d "header" = Some (Dict h) →
  dict_get h "VersionString" = Some (Leaf (Np.Bytes text)) →
  Py.float_of_string text = Raise ValueError →
  load_group uninit file format_string = Raise ValueError.
Proof.
  intros Hcrawl Hheader Hversion Htext.
  unfold load_group, decode, dict_getitem. rewrite Hcrawl. simpl.
  rewrite Hheader. simpl. unfold resolve_version. simpl. rewrite Hversion.
  rewrite bool_decide_eq_true_2 by eauto. simpl.
  unfold dict_getitem. rewrite Hversion. simpl. by rewrite Htext.
Qed.

Lemma load_group_malformed_version_witness :
  load_group no_memory file_with_bad_version "double" = Raise ValueError.
Proof.
  eapply (load_group_malformed_version no_memory file_with_bad_version).
  - vm_compute. reflexivity.
  - reflexivity.
  - reflexivity.
  - reflexivity.
Defined.

(** ** More on the scaling of one array *)

Lemma foldM_invariant_in {A B} (P : B → Prop) (f : B → A → result B) (l : list A) :
  (∀ acc x acc', x ∈ l → P acc → f acc x = Ok acc' → P acc') →
  ∀ acc r, P acc → foldM f l acc = Ok r → P r.
Proof.
  induction l as [|x l IH]; intros Hf acc r HP; simpl.
  - by intros [= <-].
  - intros (acc' & Hx & Hr)%bind_Ok.
    eapply IH; [|by eapply (Hf acc x); [left|..]|done].
    intros ???? ; apply Hf. by right.
Qed.

Lemma scale_channel_other_rows inverse coefficients data scaled i scaled' j :
  scale_channel inverse coefficients data scaled i = Ok scaled' → i ≠ j →
  Np.row scaled' j = Np.row scaled j.
Proof.
  unfold scale_channel.
  intros (inv & _ & (c & _ & (xs & _ & H)%bind_Ok)%bind_Ok)%bind_Ok Hne.
  destruct scaled as [x|v|nc rows]; simpl in H; try done.
  case_decide; [|done]. injection H as <-. simpl.
  by rewrite list_lookup_insert_ne.
Qed.

Lemma scaled_double_rows_rest uninit data scales coefficients out i :
  scaled_double_analog_data_from_raw uninit (Leaf data) scales coefficients
  = Ok (Np.Float64 out) →
  (length scales ≤ i)%nat →
  Np.row out i = Np.row (Np.empty uninit data) i.
Proof.
  unfold scaled_double_analog_data_from_raw. simpl.
  intros (scaled & Hloop & [= <-])%bind_Ok Hi.
  revert Hloop.
  apply (foldM_invariant_in (λ a, Np.row a i = Np.row (Np.empty uninit data) i));
    [|done].
  intros acc x acc' Hx <- Hstep.
  apply elem_of_seq in Hx. eapply scale_channel_other_rows; [done|lia].
Qed.

(** X11: the rows of the raw array beyond the number of channel scales are
    never written: in the result they hold what [numpy.empty] handed out,
    uninitialised memory. *)
Theorem scaled_double_rows_beyond_scales uninit data scales coefficients out i :
  scaled_double_analog_data_from_raw uninit (Leaf data) scales coefficients
  = Ok (Np.Float64 out) →
  (length scales ≤ i)%nat →
  Np.row out i = Np.row (Np.empty uninit data) i.
Proof. apply scaled_double_rows_rest. Qed.

Lemma scaled_double_rows_beyond_scales_witness :
  Np.row (Np.Matrix 2 [[Py.literal "5.0"; Py.literal "10.0"]; [S754_nan; S754_nan]]) 1
  = Ok [no_memory 2; no_memory 3].
Proof.
  apply (scaled_double_rows_beyond_scales no_memory
           (Np.Int (Np.Matrix 2 [[10; 20]; [30; 40]])) [Py.literal "2.0"]
           unit_coefficients).
  - vm_compute. reflexivity.
  - simpl. lia.
Defined.

Lemma scale_channels_fail uninit ncols (counts : list (list Z)) nk
    (coefficients : list (list Py.float)) (inverse : list Py.float) (n : nat) :
  (n ≤ length inverse)%nat →
  (length counts < n ∨ length coefficients < n)%nat →
  foldM (scale_channel inverse (Leaf (Np.Float64 (Np.Matrix nk coefficients)))
           (Np.Int (Np.Matrix ncols counts)))
    (seq 0 n) (Np.empty uninit (Np.Int (Np.Matrix ncols counts)))
  = Raise IndexError.
Proof.
  intros Hinv Hshort.
  set (j := (length counts `min` length coefficients)%nat).
  assert (j < n)%nat as Hj by lia.
  replace n with (j + S (n - S j))%nat by lia.
  rewrite seq_app, foldM_app.
  destruct (scale_channels_counts uninit ncols counts nk coefficients inverse j)
    as (rows & -> & _ & _); [lia..|].
  simpl. unfold scale_channel.
  destruct (lookup_lt_is_Some_2 inverse j) as [inv ->]; [lia|]. simpl.
  destruct (coefficients !! j) as [c|] eqn:Hc; simpl; [|done].
  apply lookup_lt_Some in Hc.
  rewrite (lookup_ge_None_2 counts j) by lia. done.
Qed.

Lemma scaled_double_counts_cases uninit ncols (counts : list (list Z))
    (channel_scales : list Py.float) nk (coefficients : list (list Py.float)) :
  if decide (length channel_scales ≤ length counts
             ∧ length channel_scales ≤ length coefficients)%nat
  then ∃ rows,
    scaled_double_analog_data_from_raw uninit
      (Leaf (Np.Int (Np.Matrix ncols counts))) channel_scales
      (Leaf (Np.Float64 (Np.Matrix nk coefficients)))
    = Ok (Np.Float64 (Np.Matrix ncols rows))
    ∧ length rows = length counts
    ∧ ∀ i scale c xs,
        channel_scales !! i = Some scale → coefficients !! i = Some c →
        counts !! i = Some xs →
        rows !! i
        = Some ((λ x, Py.fmul (Py.fdiv one scale)
                        (Np.polyval (rev c) (S754_zero false) (Py.float_of_Z x)))
                  <$> xs)
  else
    scaled_double_analog_data_from_raw uninit
      (Leaf (Np.Int (Np.Matrix ncols counts))) channel_scales
      (Leaf (Np.Float64 (Np.Matrix nk coefficients)))
    = Raise IndexError.
Proof.
  unfold scaled_double_analog_data_from_raw, as_array.
  change (Ok ?a ≫= ?f) with (f a). cbv beta.
  case_decide as Hlen.
  - destruct (scale_channels_counts uninit ncols counts nk coefficients
                (map (Py.fdiv one) channel_scales) (length channel_scales))
      as (rows & Hloop & Hrows_len & Hrows); [by rewrite length_map|lia..|].
    exists rows. rewrite Hloop. split; [done|]. split; [done|].
    intros i scale c xs Hscale Hc Hxs.
    apply (Hrows i (Py.fdiv one scale) c xs); [by eapply lookup_lt_Some| |done..].
    by rewrite map_fmap, list_lookup_fmap, Hscale.
  - rewrite scale_channels_fail; [done|by rewrite length_map|lia].
Qed.

(** X12: on integer counts and float coefficients the scaling succeeds
    when the raw array and the coefficient matrix have a row for every
    channel scale, and keeps the number of rows; with fewer rows in either
    it raises [IndexError]. *)
Theorem scaled_double_row_bounds uninit ncols (counts : list (list Z))
    (channel_scales : list Py.float) nk (coefficients : list (list Py.float)) :
  if decide (length channel_scales ≤ length counts
             ∧ length channel_scales ≤ length coefficients)%nat
  then ∃ rows,
    scaled_double_analog_data_from_raw uninit
      (Leaf (Np.Int (Np.Matrix ncols counts))) channel_scales
      (Leaf (Np.Float64 (Np.Matrix nk coefficients)))
    = Ok (Np.Float64 (Np.Matrix ncols rows))
    ∧ length rows = length counts
  else
    scaled_double_analog_data_from_raw uninit
      (Leaf (Np.Int (Np.Matrix ncols counts))) channel_scales
      (Leaf (Np.Float64 (Np.Matrix nk coefficients)))
    = Raise IndexError.
Proof.
  pose proof (scaled_double_counts_cases uninit ncols counts channel_scales nk
                coefficients) as H.
  case_decide; [|done]. destruct H as (rows & ? & ? & _). eauto.
Qed.

Lemma fdiv_one_zero s : Py.fdiv one (S754_zero s) = S754_infinity s.
Proof. by destruct s. Qed.

Lemma fmul_infinity s y : not_finite (Py.fmul (S754_infinity s) y) = true.
Proof. by destruct y. Qed.

(** X13: a channel scale of zero raises nothing: every sample of that
    channel is an infinity or a NaN. *)
Theorem zero_scale_not_finite uninit ncols (counts : list (list Z))
    (channel_scales : list Py.float) nk (coefficients : list (list Py.float))
    rows i s r y :
  scaled_double_analog_data_from_raw uninit
    (Leaf (Np.Int (Np.Matrix ncols counts))) channel_scales
    (Leaf (Np.Float64 (Np.Matrix nk coefficients)))
  = Ok (Np.Float64 (Np.Matrix ncols rows)) →
  channel_scales !! i = Some (S754_zero s) →
  rows !! i = Some r → y ∈ r →
  not_finite y = true.
Proof.
  intros Hout Hscale Hr Hy.
  pose proof (scaled_double_counts_cases uninit ncols counts channel_scales nk
                coefficients) as H.
  case_decide as Hlen; [|congruence].
  destruct H as (rows' & Hout' & _ & Hrows).
  rewrite Hout in Hout'. injection Hout' as <-.
  pose proof (lookup_lt_Some _ _ _ Hscale) as Hi.
  destruct Hlen as [Hlen1 Hlen2].
  unfold Py.float in *.
  destruct (lookup_lt_is_Some_2 coefficients i) as [c Hc]; [lia|].
  destruct (lookup_lt_is_Some_2 counts i) as [xs Hxs]; [lia|].
  rewrite (Hrows i _ c xs Hscale Hc Hxs) in Hr. injection Hr as <-.
  apply list_elem_of_fmap in Hy as (x & -> & _).
  rewrite <- (fmul_infinity s (Np.polyval (rev c) (S754_zero false) (Py.float_of_Z x))).
  by rewrite <- fdiv_one_zero.
Qed.

Lemma zero_scale_not_finite_witness :
  not_finite (S754_infinity false) = true.
Proof.
  apply (zero_scale_not_finite no_memory 2 [[10; 20]] [S754_zero false] 2
           [[Py.literal "0.0"; Py.literal "1.0"]]
           [[S754_infinity false; S754_infinity false]] 0 false
           [S754_infinity false; S754_infinity false]).
  - by vm_compute.
  - reflexivity.
  - reflexivity.
  - by left.
Defined.

(** ** More on the scaling pass and the loader *)

(** Distinct keys of a given mapping. *)
Ltac distinct_keys :=
  vm_compute;
  repeat (apply NoDup_cons_2;
          [rewrite ?elem_of_cons, elem_of_nil; naive_solver|]);
  apply NoDup_nil_2.

Lemma mapM_Forall2 {A B} (f : A → result B) (l : list A) (l' : list B) :
  mapM f l = Ok l' → Forall2 (λ x y, f x = Ok y) l l'.
Proof.
  revert l'. induction l as [|x l IH]; intros l'; simpl.
  - intros [= <-]. constructor.
  - intros (y & Hy & (ys & Hys & [= <-])%bind_Ok)%bind_Ok.
    constructor; auto.
Qed.

Lemma amap_shape {A B} (f : A → B) (a : Np.array A) :
  Np.shape (Np.amap f a) = Np.shape a.
Proof. destruct a; simpl; by rewrite ?length_map. Qed.

(** What the loop body does to one field. *)
Lemma scale_entry_Ok uninit single scales coefficients k v kv' :
  scale_entry uninit single scales coefficients (k, v) = Ok kv' →
  kv'.1 = k
  ∧ if is_sweep k then
      ∃ e raw a,
        v = Dict e ∧ dict_get e "analogScans" = Some (Leaf raw)
        ∧ kv'.2 = Dict (dict_set e "analogScans" (Leaf a))
        ∧ Np.shape_of a = Np.shape_of raw
        ∧ (if single then ∃ x, a = Np.Float32 x else ∃ x, a = Np.Float64 x)
    else kv'.2 = v.
Proof.
  unfold scale_entry. simpl. destruct (is_sweep k); [|by intros [= <-]].
  intros (raw & Hraw & (a & Ha & (entry' & Hset & [= <-])%bind_Ok)%bind_Ok)%bind_Ok.
  split; [done|]. simpl.
  destruct v as [b|e]; [by destruct b|].
  simpl in Hraw, Hset. injection Hset as <-.
  unfold dict_getitem in Hraw.
  destruct (dict_get e "analogScans") as [raw'|] eqn:He; [|done].
  injection Hraw as ->.
  assert (∃ r, raw = Leaf r) as [r ->].
  { destruct raw as [r|]; [eauto|].
    destruct single; simpl in Ha;
      unfold scaled_single_analog_data_from_raw,
        scaled_double_analog_data_from_raw in Ha; done. }
  exists e, r, a. split_and!; try done.
  - destruct single.
    + unfold scaled_single_analog_data_from_raw in Ha.
      apply bind_Ok in Ha as (out & Hout & Ha).
      pose proof (scaled_double_shape _ _ _ _ _ Hout) as Hshape.
      apply scaled_double_Float64 in Hout as [x ->].
      injection Ha as <-. simpl in *. by rewrite amap_shape.
    + by eapply scaled_double_shape.
  - destruct single.
    + unfold scaled_single_analog_data_from_raw in Ha.
      apply bind_Ok in Ha as (out & Hout & Ha).
      apply scaled_double_Float64 in Hout as [x ->].
      injection Ha as <-. eauto.
    + by eapply scaled_double_Float64.
Qed.

(** Fields related one by one, with the same keys, are found together. *)
Lemma Forall2_dict_get (R : string * value → string * value → Prop)
    (d d' : dict) k v :
  Forall2 (λ x y, y.1 = x.1 ∧ R x y) d d' →
  dict_get d k = Some v →
  ∃ v', dict_get d' k = Some v' ∧ R (k, v) (k, v').
Proof.
  induction 1 as [|[k0 v0] [k0' v0'] d d' [Hk HR] _ IH]; simpl; [done|].
  simpl in Hk. subst k0'.
  destruct (String.eqb k0 k) eqn:E; [|done].
  apply String.eqb_eq in E as ->. intros [= ->]. eauto.
Qed.

Lemma Forall2_keys (R : string * value → string * value → Prop) (d d' : dict) :
  Forall2 (λ x y, y.1 = x.1 ∧ R x y) d d' → keys d' = keys d.
Proof.
  induction 1 as [|x y d d' [Hk _] _ IH]; simpl; [done|]. by rewrite Hk, IH.
Qed.

(** The scaling pass, field by field. *)
Lemma scale_analog_scans_fields uninit format_string header d d' :
  NoDup (keys d) →
  scale_analog_scans uninit format_string header d = Ok d' →
  Forall2 (λ x y, y.1 = x.1
             ∧ if is_sweep x.1 then
                 ∃ e raw a,
                   x.2 = Dict e ∧ dict_get e "analogScans" = Some (Leaf raw)
                   ∧ y.2 = Dict (dict_set e "analogScans" (Leaf a))
                   ∧ Np.shape_of a = Np.shape_of raw
                   ∧ (if String.eqb (Py.lower format_string) "single"
                      then ∃ x, a = Np.Float32 x else ∃ x, a = Np.Float64 x)
               else y.2 = x.2) d d'.
Proof.
  intros Hnd. unfold scale_analog_scans.
  intros (all & _ & (active & _ & (scales & _ & (coefficients & _ & Hloop)%bind_Ok
    )%bind_Ok)%bind_Ok)%bind_Ok.
  pose proof (foldM_scale_field uninit (String.eqb (Py.lower format_string) "single")
                scales coefficients [] d Hnd) as Hfold.
  change ([] ++ d) with d in Hfold. rewrite Hfold in Hloop.
  apply fmap_Ok in Hloop as (l & Hl & ->). simpl.
  apply mapM_Forall2 in Hl.
  eapply Forall2_impl; [done|].
  intros [k v] kv' H. by apply scale_entry_Ok in H.
Qed.

(** X14: the scaling pass keeps the fields of the tree and their order, and
    returns every field whose name does not start with "sweep" or "trial",
    the header among them, as it was. *)
Theorem scale_analog_scans_frame uninit format_string header d d' :
  NoDup (keys d) →
  scale_analog_scans uninit format_string header d = Ok d' →
  keys d' = keys d
  ∧ ∀ k, is_sweep k = false → dict_get d' k = dict_get d k.
Proof.
  intros Hnd Hd. apply scale_analog_scans_fields in Hd; [|done].
  split.
  - by eapply (Forall2_keys (λ x y, _)).
  - intros k Hk. destruct (dict_get d k) as [v|] eqn:Hget.
    + eapply (Forall2_dict_get (λ x y, _)) in Hget as (v' & -> & Hv'); [|done].
      simpl in Hv'. rewrite Hk in Hv'. by rewrite Hv'.
    + apply dict_get_None in Hget. apply dict_get_None.
      by erewrite (Forall2_keys (λ x y, _)).
Qed.

Lemma scale_analog_scans_frame_witness :
  ∃ d',
    scale_analog_scans no_memory "double" sample_header sample_tree = Ok d'
    ∧ keys d' = keys sample_tree
    ∧ dict_get d' "header" = dict_get sample_tree "header".
Proof.
  destruct (scale_analog_scans no_memory "double" sample_header sample_tree)
    as [d'|] eqn:Hd; [|by vm_compute in Hd].
  exists d'. split; [done|].
  destruct (scale_analog_scans_frame no_memory "double" sample_header sample_tree d')
    as [Hkeys Hget]; [distinct_keys|done|].
  split; [exact Hkeys|]. by apply Hget.
Defined.

(** X15: after the scaling pass every sweep and trial is the record it
    was, with its other fields untouched and its [analogScans] replaced by
    an array of the same shape: of single precision when the selector is
    "single" in any case, of double precision otherwise. *)
Theorem scale_analog_scans_sweeps uninit format_string header d d' k v :
  NoDup (keys d) →
  scale_analog_scans uninit format_string header d = Ok d' →
  is_sweep k = true → dict_get d k = Some v →
  ∃ e raw a,
    v = Dict e ∧ dict_get e "analogScans" = Some (Leaf raw)
    ∧ dict_get d' k = Some (Dict (dict_set e "analogScans" (Leaf a)))
    ∧ Np.shape_of a = Np.shape_of raw
    ∧ (if String.eqb (Py.lower format_string) "single"
       then ∃ x, a = Np.Float32 x else ∃ x, a = Np.Float64 x).
Proof.
  intros Hnd Hd Hk Hget. apply scale_analog_scans_fields in Hd; [|done].
  eapply (Forall2_dict_get (λ x y, _)) in Hget as (v' & Hget' & Hv'); [|done].
  simpl in Hv'. rewrite Hk in Hv'.
  destruct Hv' as (e & raw & a & -> & Hraw & -> & Hshape & Hkind).
  exists e, raw, a. by split_and!.
Qed.

Lemma scale_analog_scans_sweeps_witness :
  ∃ d' e raw a,
    scale_analog_scans no_memory "Single" sample_header sample_tree = Ok d'
    ∧ dict_get e "analogScans" = Some (Leaf raw)
    ∧ dict_get d' "sweep_0001" = Some (Dict (dict_set e "analogScans" (Leaf a)))
    ∧ Np.shape_of a = Np.shape_of raw
    ∧ ∃ x, a = Np.Float32 x.
Proof.
  destruct (scale_analog_scans no_memory "Single" sample_header sample_tree)
    as [d'|] eqn:Hd; [|by vm_compute in Hd].
  destruct (scale_analog_scans_sweeps no_memory "Single" sample_header sample_tree d'
              "sweep_0001"
              (Dict [("analogScans", Leaf (Np.Int (Np.Matrix 2 [[10; 20]])))]))
    as (e & raw & a & _ & Hraw & Hget & Hshape & Hkind);
    [distinct_keys|done|reflexivity|reflexivity|].
  exists d', e, raw, a. by split_and!.
Defined.

Lemma decode_keeps file d0 d header n_a_i_channels :
  crawl_h5_group (Group file) = Ok d0 →
  decode file = Ok (d, header, n_a_i_channels) →
  NoDup (keys d) ∧ keys d = keys d0
  ∧ dict_get d "header" = Some header
  ∧ ∀ k, k ≠ "header" → dict_get d k = dict_get d0 k.
Proof.
  intros Hcrawl Hdecode.
  destruct (decode_frame _ _ _ _ _ Hcrawl Hdecode) as [Hnd _].
  revert Hdecode. unfold decode. rewrite Hcrawl. simpl.
  intros (h0 & Hh0 & (version & _ & ([d1 h1] & Hfix & (n & _ & H)%bind_Ok
    )%bind_Ok)%bind_Ok)%bind_Ok.
  injection H as <- <- <-.
  unfold dict_getitem in Hh0.
  destruct (dict_get d0 "header") as [h|] eqn:Hget; [|done].
  injection Hh0 as ->.
  apply correct_sample_rates_keeps in Hfix as (Hkeys & Hheader & Hother & _); done.
Qed.

Lemma is_sweep_header : is_sweep "header" = false.
Proof. reflexivity. Qed.

(** X16: whatever the format, a loaded tree has the fields of the crawled
    tree in the same order, and every field that is neither the header nor
    a sweep or trial is returned as the crawler read it. *)
Theorem load_group_fields uninit file format_string d0 d :
  crawl_h5_group (Group file) = Ok d0 →
  load_group uninit file format_string = Ok d →
  keys d = keys d0
  ∧ ∀ k, k ≠ "header" → is_sweep k = false → dict_get d k = dict_get d0 k.
Proof.
  intros Hcrawl. unfold load_group.
  intros ([[d1 header] n] & Hdecode & (wanted & _ & Hscale)%bind_Ok)%bind_Ok.
  destruct (decode_keeps _ _ _ _ _ Hcrawl Hdecode) as (Hnd & Hkeys & _ & Hother).
  destruct wanted.
  - apply scale_analog_scans_fields in Hscale; [|done]. split.
    + rewrite <- Hkeys. by eapply (Forall2_keys (λ x y, _)).
    + intros k Hk Hsweep. rewrite <- Hother by done.
      destruct (dict_get d1 k) as [v|] eqn:Hget.
      * eapply (Forall2_dict_get (λ x y, _)) in Hget as (v' & -> & Hv'); [|done].
        simpl in Hv'. rewrite Hsweep in Hv'. by rewrite Hv'.
      * apply dict_get_None in Hget. apply dict_get_None.
        by erewrite (Forall2_keys (λ x y, _)).
  - injection Hscale as <-. auto.
Qed.

Lemma load_group_fields_witness :
  ∃ d,
    load_group no_memory (sample_file "0.913" "20000.0") "double" = Ok d
    ∧ keys d = keys sample_tree.
Proof.
  destruct (load_group no_memory (sample_file "0.913" "20000.0") "double")
    as [d|] eqn:Hd; [|by vm_compute in Hd].
  exists d. split; [done|].
  by apply (load_group_fields no_memory (sample_file "0.913" "20000.0") "double"
              sample_tree d).
Defined.

Lemma substring_0_0 s : String.substring 0 0 s = EmptyString.
Proof. by destruct s. Qed.

(** X17: a field is taken for a sweep or a trial exactly when its name
    starts with "sweep" or with "trial", in lower case, whatever follows. *)
Theorem is_sweep_prefix field_name :
  is_sweep field_name = true
  ↔ ∃ rest, field_name = "sweep" +:+ rest ∨ field_name = "trial" +:+ rest.
Proof.
  unfold is_sweep. split.
  - destruct field_name as [|c1 [|c2 [|c3 [|c4 [|c5 rest]]]]]; try done.
    cbn [String.length String.substring]. rewrite substring_0_0.
    intros [_ [H%String.eqb_eq | H%String.eqb_eq]%orb_true_iff]%andb_true_iff;
      injection H as -> -> -> -> ->; exists rest; auto.
  - intros (rest & [-> | ->]); by destruct rest.
Qed.

Lemma is_sweep_prefix_witness : is_sweep "trial_0003" = true.
Proof. apply (is_sweep_prefix "trial_0003"). exists "_0003". by right. Defined.

(** ** The scaled samples of a loaded sweep *)

Lemma scale_entry_key uninit single scales coefficients kv kv' :
  scale_entry uninit single scales coefficients kv = Ok kv' → kv'.1 = kv.1.
Proof. destruct kv as [k v]. by intros [? _]%scale_entry_Ok. Qed.

(** X18: in the scaling pass with float scales, a mask of the same length
    and float coefficients, a sweep of integer counts is replaced by a
    double array in which row [i] is scaled with the scale of the [i]-th
    active channel and with row [i] of the whole coefficient matrix, which
    the mask does not filter. *)
Theorem scale_analog_scans_samples uninit format_string header d d'
    (all : list Py.float) (mask : list bool) nk (coefficients : list (list Py.float))
    k e ncols (counts : list (list Z)) :
  NoDup (keys d) →
  Py.lower format_string ≠ "single" →
  read_channel_scales header = Ok (Leaf (Np.Float64 (Np.Vector all))) →
  read_is_active header = Ok (Np.Vector mask) →
  length all = length mask →
  read_scaling_coefficients header
  = Ok (Leaf (Np.Float64 (Np.Matrix nk coefficients))) →
  scale_analog_scans uninit format_string header d = Ok d' →
  is_sweep k = true →
  dict_get d k = Some (Dict e) →
  dict_get e "analogScans" = Some (Leaf (Np.Int (Np.Matrix ncols counts))) →
  ∃ rows,
    dict_get d' k
    = Some (Dict (dict_set e "analogScans" (Leaf (Np.Float64 (Np.Matrix ncols rows)))))
    ∧ ∀ i scale c xs j x,
        active_items all mask !! i = Some scale → coefficients !! i = Some c →
        counts !! i = Some xs → xs !! j = Some x →
        rows !! i ≫= (.!! j)
        = Some (Py.fmul (Py.fdiv one scale)
                  (Np.polyval (rev c) (S754_zero false) (Py.float_of_Z x))).
Proof.
  intros Hnd Hsingle%String.eqb_neq Hscales Hmask Hlen Hcoef Hpass Hk Hget Hraw.
  unfold scale_analog_scans in Hpass.
  rewrite Hscales, Hmask, Hcoef, Hsingle in Hpass. simpl in Hpass.
  unfold Np.select in Hpass. simpl in Hpass.
  rewrite decide_True in Hpass by (by rewrite Hlen). simpl in Hpass.
  fold (active_items all mask) in Hpass.
  pose proof (foldM_scale_field uninit false (active_items all mask)
                (Leaf (Np.Float64 (Np.Matrix nk coefficients))) [] d Hnd) as Hfold.
  change ([] ++ d) with d in Hfold. rewrite Hfold in Hpass.
  apply fmap_Ok in Hpass as (l & Hl & ->). simpl.
  apply mapM_Forall2 in Hl.
  assert (Forall2 (λ x y, y.1 = x.1
            ∧ scale_entry uninit false (active_items all mask)
                (Leaf (Np.Float64 (Np.Matrix nk coefficients))) x = Ok y) d l) as Hl'.
  { eapply Forall2_impl; [exact Hl|]. intros x y H. split; [|done].
    exact (scale_entry_key _ _ _ _ _ _ H). }
  eapply (Forall2_dict_get (λ x y, _)) in Hget as (v' & Hget' & Hv'); [|exact Hl'].
  unfold scale_entry in Hv'. simpl in Hv'. rewrite Hk in Hv'.
  unfold dict_getitem in Hv'. rewrite Hraw in Hv'. simpl in Hv'.
  pose proof (scaled_double_counts_cases uninit ncols counts
                (active_items all mask) nk coefficients) as Hcases.
  case_decide.
  - destruct Hcases as (rows & Hrows_eq & _ & Hrows).
    unfold active_items in *. rewrite Hrows_eq in Hv'. simpl in Hv'.
    injection Hv' as <-. exists rows. split; [done|].
    intros i scale c xs j x Hscale Hc Hxs Hx.
    rewrite (Hrows i scale c xs Hscale Hc Hxs). simpl.
    by rewrite list_lookup_fmap, Hx.
  - unfold active_items in *. by rewrite Hcases in Hv'.
Qed.

Lemma scale_analog_scans_samples_witness :
  ∃ d' rows,
    scale_analog_scans no_memory "double" sample_header sample_tree = Ok d'
    ∧ dict_get d' "sweep_0001"
      = Some (Dict [("analogScans", Leaf (Np.Float64 (Np.Matrix 2 rows)))])
    ∧ rows !! 0%nat ≫= (.!! 1%nat) = Some (Py.literal "10.0").
Proof.
  destruct (scale_analog_scans no_memory "double" sample_header sample_tree)
    as [d'|] eqn:Hd; [|by vm_compute in Hd].
  destruct (scale_analog_scans_samples no_memory "double" sample_header sample_tree d'
              [Py.literal "2.0"] [true] 2 [[Py.literal "0.0"; Py.literal "1.0"]]
              "sweep_0001"
              [("analogScans", Leaf (Np.Int (Np.Matrix 2 [[10; 20]])))] 2 [[10; 20]])
    as (rows & Hget & Hrows);
    [distinct_keys|discriminate|reflexivity|reflexivity|reflexivity|reflexivity
    |done|reflexivity|reflexivity|reflexivity|].
  exists d', rows. split; [done|]. split; [exact Hget|].
  apply (Hrows 0%nat (Py.literal "2.0") [Py.literal "0.0"; Py.literal "1.0"]
           [10; 20] 1%nat 20); reflexivity.
Defined.

(** ** The extension of the file name *)

Lemma list_ascii_of_string_app (a b : string) :
  String.list_ascii_of_string (a +:+ b)
  = String.list_ascii_of_string a ++ String.list_ascii_of_string b.
Proof. induction a as [|c a IH]; simpl; [done|]. by rewrite IH. Qed.

Lemma break_at_absent c (s t : list ascii) :
  Forall (λ x, x ≠ c) s →
  Py.break_at c (s ++ t)
  = let '(a, b) := Py.break_at c t in (s ++ a, b).
Proof.
  induction 1 as [|x s Hx _ IH]; simpl.
  - by destruct (Py.break_at c t).
  - apply Ascii.eqb_neq in Hx. rewrite Hx, IH. by destruct (Py.break_at c t).
Qed.

Lemma break_at_slash_directory (dir : list ascii) :
  dir = [] ∨ (∃ d, dir = d ++ ["/"%char]) →
  (Py.break_at "/" (rev dir)).1 = [].
Proof.
  intros [-> | [d ->]]; [done|]. by rewrite rev_app_distr.
Qed.

Lemma splitext_ext_h5 (dir stem : string) :
  (dir = EmptyString ∨ ∃ d, dir = d +:+ "/") →
  Forall (λ c, c ≠ "/"%char) (String.list_ascii_of_string stem) →
  Exists (λ c, c ≠ "."%char) (String.list_ascii_of_string stem) →
  Py.splitext_ext (dir +:+ stem +:+ ".h5") = ".h5".
Proof.
  intros Hdir Hslash Hdot. unfold Py.splitext_ext.
  rewrite !list_ascii_of_string_app, !rev_app_distr.
  change (rev (String.list_ascii_of_string ".h5")) with ["5"; "h"; "."]%char.
  rewrite (break_at_absent "/" _ (rev (String.list_ascii_of_string dir))).
  2:{ apply Forall_app. split; [by repeat constructor|].
      by apply Forall_rev. }
  pose proof (break_at_slash_directory (String.list_ascii_of_string dir)) as Hbase.
  destruct (Py.break_at "/" (rev (String.list_ascii_of_string dir))) as [a b].
  simpl in Hbase. rewrite Hbase, app_nil_r.
  2:{ destruct Hdir as [-> | [d ->]]; [by left|right].
      exists (String.list_ascii_of_string d). by rewrite list_ascii_of_string_app. }
  simpl.
  assert (forallb (Ascii.eqb ".") (rev (String.list_ascii_of_string stem)) = false)
    as ->; [|done].
  apply not_true_is_false. intros Hall.
  rewrite forallb_forall in Hall.
  apply Exists_exists in Hdot as (c & Hc & Hne).
  apply Hne. symmetry. apply Ascii.eqb_eq, Hall.
  apply in_rev. rewrite rev_involutive. by apply list_elem_of_In.
Qed.

(** X19: a path whose last component is a stem followed by ".h5", where
    the stem has no "/" and is not made of dots only, passes the check of
    the extension: when the file exists the loader goes on to read it. *)
Theorem loadDataFile_extension uninit (fs : filesystem) (dir stem : string)
    format_string file :
  (dir = EmptyString ∨ ∃ d, dir = d +:+ "/") →
  Forall (λ c, c ≠ "/"%char) (String.list_ascii_of_string stem) →
  Exists (λ c, c ≠ "."%char) (String.list_ascii_of_string stem) →
  fs (dir +:+ stem +:+ ".h5") = Some file →
  loadDataFile uninit fs (dir +:+ stem +:+ ".h5") format_string
  = load_group uninit file format_string.
Proof.
  intros Hdir Hslash Hdot Hfile. unfold loadDataFile.
  by rewrite Hfile, splitext_ext_h5.
Qed.

Lemma loadDataFile_extension_witness :
  loadDataFile no_memory (files (sample_file "0.913" "20000.0")) "data.h5" "raw"
  = load_group no_memory (sample_file "0.913" "20000.0") "raw".
Proof.
  apply (loadDataFile_extension no_memory (files (sample_file "0.913" "20000.0"))
           EmptyString "data" "raw").
  - by left.
  - repeat constructor; discriminate.
  - left. discriminate.
  - reflexivity.
Defined.

(** ** Loading without scaling *)

(** X20: when the format is "raw" in any case, or the number of analog
    channels is not positive, the loader returns the decoded tree as it
    is: none of the scales, mask and coefficients is read, so a file
    without them loads. *)
Theorem load_group_without_scaling uninit file format_string d header n_a_i_channels :
  decode file = Ok (d, header, n_a_i_channels) →
  Py.lower format_string = "raw" ∨ count_positive n_a_i_channels = Ok false →
  load_group uninit file format_string = Ok d.
Proof.
  intros Hdecode Hno. unfold load_group, scaling_wanted. rewrite Hdecode. simpl.
  destruct (String.eqb (Py.lower format_string) "raw") eqn:Hraw; [done|].
  destruct Hno as [Hno | ->]; [|done].
  by rewrite Hno in Hraw.
Qed.

Lemma load_group_without_scaling_witness :
  ∃ d, load_group no_memory file_without_scales "Raw" = Ok d.
Proof.
  destruct (decode file_without_scales) as [[[d header] n]|] eqn:Hdecode;
    [|by vm_compute in Hdecode].
  exists d.
  apply (load_group_without_scaling no_memory file_without_scales "Raw" d header n);
    [done|by left].
Defined.
